(** * Multiscale entropy (NeuroKit2, [complexity/entropy_multiscale.py])

    A shallow embedding of [entropy_multiscale], of the internal
    [_entropy_multiscale] and of the three per-scale methods
    [_entropy_multiscale_mse], [_entropy_multiscale_cmse] and
    [_entropy_multiscale_rcmse], followed by the properties of the
    specification that concern them.

    Numbers are IEEE-754 binary64 values (Rocq's primitive [float], the
    type numpy calls [float64]), so that [nan == nan] is false and
    [0.0 / 0] is [nan], exactly as in the program.  The functions imported
    from sibling modules ([_get_scales], [complexity_coarsegraining],
    [entropy_sample], [_phi], ...) are collaborators: the development is
    parametrised by them, and every call to one of them is recorded in a
    trace, so that "which estimator is called, how often and with which
    arguments" can be stated. *)

From Stdlib Require Import ZArith List Bool Lia String.
From Stdlib Require Import Floats Uint63.
From stdpp Require Import base gmap strings.
Import ListNotations.

Local Open Scope nat_scope.

(* ===================================================================== *)
(** ** numpy primitives used by the module *)
(* ===================================================================== *)

Module Np.

(** [np.nan], [np.inf]. *)
Definition nan : float := PrimFloat.nan.
Definition inf : float := PrimFloat.infinity.
Definition neg_inf : float := PrimFloat.neg_infinity.

(** [np.isnan], [np.isfinite] on one element. *)
Definition isnan (x : float) : bool := PrimFloat.is_nan x.
Definition isfinite (x : float) : bool := PrimFloat.is_finite x.

(** [x == y] and [x != y] on float64 (IEEE comparison). *)
Definition eq (x y : float) : bool := PrimFloat.eqb x y.
Definition ne (x y : float) : bool := negb (PrimFloat.eqb x y).

(** A Python [int] that is a length or a difference of indices, as the
    float64 it is converted to when it meets a float64 operand. *)
Definition float_of_nat (n : nat) : float :=
  PrimFloat.of_uint63 (Uint63.of_Z (Z.of_nat n)).
Definition float_of_Z (z : Z) : float :=
  if (z <? 0)%Z then PrimFloat.opp (PrimFloat.of_uint63 (Uint63.of_Z (- z)))
  else PrimFloat.of_uint63 (Uint63.of_Z z).

(** [arr.sum()] on a contiguous float64 array is numpy's pairwise
    summation, with accumulators that start from [0.0].  Fewer than 8
    elements are added one by one. *)
Definition add_list (acc : float) (xs : list float) : float :=
  fold_left PrimFloat.add xs acc.

(** [r[j] += a[i + j]] for the eight running sums [r]. *)
Fixpoint add_into (r ys : list float) : list float :=
  match r, ys with
  | a :: r', y :: ys' => PrimFloat.add a y :: add_into r' ys'
  | _, _ => r
  end.

(** The loop over the next [groups] blocks of eight elements: the running
    sums, and the elements not yet added. *)
Fixpoint add_groups (groups : nat) (r xs : list float) : list float * list float :=
  match groups with
  | O => (r, xs)
  | S g => add_groups g (add_into r (firstn 8 xs)) (skipn 8 xs)
  end.

(** [((r[0] + r[1]) + (r[2] + r[3])) + ((r[4] + r[5]) + (r[6] + r[7]))]. *)
Definition tree8 (r : list float) : float :=
  let at_ j := nth j r PrimFloat.zero in
  PrimFloat.add
    (PrimFloat.add (PrimFloat.add (at_ 0) (at_ 1)) (PrimFloat.add (at_ 2) (at_ 3)))
    (PrimFloat.add (PrimFloat.add (at_ 4) (at_ 5)) (PrimFloat.add (at_ 6) (at_ 7))).

(** From 8 to 128 elements: eight running sums over the blocks of eight,
    added as a tree, then the elements left over one by one. *)
Definition sum_block (xs : list float) : float :=
  let (r, rest) := add_groups (length xs / 8 - 1) (firstn 8 xs) (skipn 8 xs) in
  add_list (tree8 r) rest.

(** More than 128 elements are split in two halves, the first of a length
    that is a multiple of 8, and the sums of the halves are added.  [fuel]
    bounds the depth of the splitting; the length of the array is
    enough. *)
Fixpoint pairwise_sum (fuel : nat) (xs : list float) : float :=
  if length xs <? 8 then add_list PrimFloat.zero xs
  else if length xs <=? 128 then sum_block xs
  else
    match fuel with
    | O => sum_block xs
    | S fuel' =>
        let n2 := length xs / 2 - (length xs / 2) mod 8 in
        PrimFloat.add (pairwise_sum fuel' (firstn n2 xs))
                      (pairwise_sum fuel' (skipn n2 xs))
    end.

(** [arr.sum()]: the pairwise sum added to the initial value [0.0]. *)
Definition sum (xs : list float) : float :=
  PrimFloat.add PrimFloat.zero (pairwise_sum (length xs) xs).

(** [np.mean(arr)]: the sum divided by the number of elements; on an
    empty array this is [0.0 / 0], that is [nan] (numpy warns, it does
    not raise). *)
Definition mean (xs : list float) : float :=
  PrimFloat.div (sum xs) (float_of_nat (length xs)).

(** [(y[1:], y[:-1])] read element by element: the pairs
    [(y[i+1], y[i])]. *)
Definition adjacent {A : Type} (y : list A) : list (A * A) :=
  combine (tl y) y.

(** [np.trapz(y)], with its defaults [x=None, dx=1.0]:
    [(d * (y[1:] + y[:-1]) / 2.0).sum()] with [d = dx]. *)
Definition trapz (y : list float) : float :=
  let d := PrimFloat.one in
  sum (map (fun p => PrimFloat.div (PrimFloat.mul d (PrimFloat.add (fst p) (snd p)))
                                   PrimFloat.two)
           (adjacent y)).

(** [arr[mask]] for a boolean mask of the same length. *)
Definition select {A : Type} (arr : list A) (mask : list bool) : list A :=
  map fst (List.filter (fun p : A * bool => snd p) (combine arr mask)).

End Np.

(* ===================================================================== *)
(** ** Python values, exceptions and keyword arguments *)
(* ===================================================================== *)

(** The values a caller may put behind a keyword. *)
Inductive pyval : Type :=
| PyNone
| PyBool (b : bool)
| PyInt (z : Z)
| PyFloat (x : float)
| PyStr (s : string).

(** A Python [**kwargs] dictionary.  Python binds the named parameters of a
    function before it fills [**kwargs], so the dictionary a function body
    sees never holds the name of one of its own parameters. *)
Abbreviation kwargs := (gmap string pyval).

(** Exceptions.  [TypeError_multiple_values callee names] is the
    [TypeError] Python raises when a call gives the function [callee] an
    argument twice, explicitly and through [**kwargs]; [names] are the
    arguments given twice (the message names the first of them in the
    order of the caller's keywords).  [OtherError] is any other exception,
    by the name of its class. *)
Inductive exn : Type :=
| ValueError (msg : string)
| TypeError (msg : string)
| TypeError_multiple_values (callee : string) (names : list string)
| OtherError (name : string).

(** What the caller passes as [signal]: a Python list of numbers, a Python
    list of lists of numbers, a numpy array with its shape, a pandas Series
    or a pandas DataFrame. *)
Inductive signal_t : Type :=
| Sig_list (items : list float)
| Sig_list_of_lists (rows : list (list float))
| Sig_ndarray (shape : list nat) (data : list float)
| Sig_Series (data : list float)
| Sig_DataFrame (columns : list (list float)).

(** [isinstance(signal, (np.ndarray, pd.DataFrame))]. *)
Definition is_ndarray_or_DataFrame (signal : signal_t) : bool :=
  match signal with
  | Sig_ndarray _ _ | Sig_DataFrame _ => true
  | Sig_list _ | Sig_list_of_lists _ | Sig_Series _ => false
  end.

(** [signal.ndim], where the object has the attribute: the number of axes of
    an array, 1 for a Series, 2 for every DataFrame. *)
Definition ndim (signal : signal_t) : option nat :=
  match signal with
  | Sig_ndarray shape _ => Some (length shape)
  | Sig_Series _ => Some 1
  | Sig_DataFrame _ => Some 2
  | Sig_list _ | Sig_list_of_lists _ => None
  end.

(** The [scale] argument: ["default"], ["max"], an int or a list of ints. *)
Inductive scale_arg : Type :=
| Scale_str (s : string)
| Scale_int (n : Z)
| Scale_list (l : list Z).

(** The [tolerance] argument of the entry point: a method name or a number. *)
Inductive tolerance_arg : Type :=
| Tol_str (s : string)
| Tol_float (x : float).

(** A coarse-grained signal: a 1-D array or a 2-D stack of rows. *)
Inductive nparray : Type :=
| Arr1 (values : list float)
| Arr2 (rows : list (list float)).

(** [len(a)]. *)
Definition len (a : nparray) : nat :=
  match a with
  | Arr1 values => length values
  | Arr2 rows => length rows
  end.

(** [y.size] of a 2-D stack: the total number of elements. *)
Definition size (y : list (list float)) : nat := length (concat y).

(** The arguments of one call to an entropy estimator or to [_phi]: the
    positional array, the keywords written at the call site ([None] when
    the call site does not write the keyword) and the forwarded [**kwargs]. *)
Record est_args : Type := Est_args {
  arg_signal : nparray;
  arg_delay : Z;
  arg_dimension : nat;
  arg_tolerance : float;
  arg_fuzzy : option bool;
  arg_approximate : option bool;
  arg_kwargs : kwargs
}.

(** What [_get_scales] hands back and [info["Scale"]] holds: the scale
    factors, in a Python list or in a numpy array. *)
Inductive scales_t : Type :=
| Scales_list (factors : list Z)
| Scales_ndarray (factors : list Z).

(** The scale factors themselves: what iterating over the object gives. *)
Definition items (scales : scales_t) : list Z :=
  match scales with
  | Scales_list factors | Scales_ndarray factors => factors
  end.

(** The record returned as [info]. *)
Record info_t : Type := Info {
  Dimension : nat;
  Scale : scales_t;
  Tolerance : float;
  Value : list float
}.

(* ===================================================================== *)
(** ** Calls to collaborators, and the monad that records them *)
(* ===================================================================== *)

(** The calls of [_entropy_multiscale_plot] to matplotlib. *)
Inductive plt_call : Type :=
| Plt_figure
| Fig_suptitle (title : string)
| Plt_ylabel (label : string)
| Plt_xlabel (label : string)
| Plt_plot (xs : list Z) (ys : list float) (color : string).

Inductive call : Type :=
| Call_get_scales (signal : signal_t) (scale : scale_arg) (dimension : nat)
| Call_complexity_tolerance (signal : signal_t) (method : tolerance_arg) (dimension : nat)
| Call_complexity_coarsegraining (signal : signal_t) (scale : Z)
                                 (show : option bool) (kw : kwargs)
| Call_entropy_sample (a : est_args)
| Call_entropy_approximate (a : est_args)
| Call_get_coarsegrained_rolling (signal : signal_t) (tau : Z)
| Call_phi (a : est_args)
| Call_phi_divide (phi : float * float)
| Call_matplotlib (c : plt_call).

Inductive outcome (A : Type) : Type :=
| Returns (a : A)
| Raises (e : exn).
Arguments Returns {A} a.
Arguments Raises {A} e.

(** A run of Python code: how it ends, and the collaborator calls it made,
    oldest first.  The calls made before an exception stay in the trace. *)
Definition Py (A : Type) : Type := outcome A * list call.

Definition ret {A : Type} (a : A) : Py A := (Returns a, []).
Definition raise {A : Type} (e : exn) : Py A := (Raises e, []).

Definition bind {A B : Type} (m : Py A) (f : A -> Py B) : Py B :=
  match m with
  | (Returns a, t) => let (r, t') := f a in (r, t ++ t')
  | (Raises e, t) => (Raises e, t)
  end.

(** One call to a collaborator: recorded, with the collaborator's outcome. *)
Definition perform {A : Type} (c : call) (r : outcome A) : Py A := (r, [c]).

(** A step that calls no collaborator. *)
Definition lift {A : Type} (r : outcome A) : Py A := (r, []).

Declare Scope py_scope.
Delimit Scope py_scope with py.
Notation "x <- m ;; k" := (bind m (fun x => k))
  (at level 100, m at next level, right associativity) : py_scope.
Notation "m ;;; k" := (bind m (fun _ => k))
  (at level 100, right associativity) : py_scope.
Local Open Scope py_scope.

(** [[f(x) for x in l]]. *)
Fixpoint for_each {A B : Type} (f : A -> Py B) (l : list A) : Py (list B) :=
  match l with
  | [] => ret []
  | x :: l' => y <- f x ;; ys <- for_each f l' ;; ret (y :: ys)
  end.

Definition outcome_of {A : Type} (m : Py A) : outcome A := fst m.
Definition trace_of {A : Type} (m : Py A) : list call := snd m.

(** The functions the module imports from its siblings.  A collaborator
    either returns or raises; [complexity_tolerance] and the two entropy
    estimators return a tuple of which the module only reads item [0],
    which is what the fields below give.  A field gives the outcome of
    the call as Python evaluates it, the binding of the arguments
    included: a call that the collaborator refuses, or that repeats in
    [**kwargs] a keyword written at the call site (["delay"] at lines
    355-357, 367-369 and 389-397), is one that raises.  [matplotlib]
    stands for the plotting library. *)
Record Collaborators : Type := {
  _get_scales : signal_t -> scale_arg -> nat -> outcome scales_t;
  complexity_tolerance : signal_t -> tolerance_arg -> nat -> outcome float;
  complexity_coarsegraining : signal_t -> Z -> option bool -> kwargs -> outcome nparray;
  entropy_sample : est_args -> outcome float;
  entropy_approximate : est_args -> outcome float;
  _get_coarsegrained_rolling : signal_t -> Z -> outcome (list (list float));
  _phi : est_args -> outcome (float * float);
  _phi_divide : float * float -> outcome float;
  matplotlib : plt_call -> outcome unit
}.

(** The estimator chosen by [approximate]. *)
Inductive algorithm_t : Type := Alg_sample | Alg_approximate.

(* ===================================================================== *)
(** ** The program *)
(* ===================================================================== *)

Section Program.

Variable E : Collaborators.

(** *** Calls to the collaborators *)

Definition call_get_scales signal scale dimension : Py scales_t :=
  perform (Call_get_scales signal scale dimension)
          (_get_scales E signal scale dimension).

Definition call_complexity_tolerance signal method dimension : Py float :=
  perform (Call_complexity_tolerance signal method dimension)
          (complexity_tolerance E signal method dimension).

Definition call_complexity_coarsegraining signal scale show kw : Py nparray :=
  perform (Call_complexity_coarsegraining signal scale show kw)
          (complexity_coarsegraining E signal scale show kw).

Definition call_entropy_sample (a : est_args) : Py float :=
  perform (Call_entropy_sample a) (entropy_sample E a).

Definition call_entropy_approximate (a : est_args) : Py float :=
  perform (Call_entropy_approximate a) (entropy_approximate E a).

Definition call_get_coarsegrained_rolling signal tau : Py (list (list float)) :=
  perform (Call_get_coarsegrained_rolling signal tau)
          (_get_coarsegrained_rolling E signal tau).

Definition call_phi (a : est_args) : Py (float * float) :=
  perform (Call_phi a) (_phi E a).

Definition call_phi_divide (p : float * float) : Py float :=
  perform (Call_phi_divide p) (_phi_divide E p).

Definition call_matplotlib (c : plt_call) : Py unit :=
  perform (Call_matplotlib c) (matplotlib E c).

(** [algorithm(...)[0]] for the estimator selected by [approximate]. *)
Definition call_algorithm (algorithm : algorithm_t) (a : est_args) : Py float :=
  match algorithm with
  | Alg_sample => call_entropy_sample a
  | Alg_approximate => call_entropy_approximate a
  end.

(** *** [entropy_multiscale] and its two local functions *)

(** [_validmean(x)] (lines 213-218). *)
Definition _validmean (x : list float) : float :=
  let x := Np.select x (map Np.isfinite x) in
  if length x =? 0 then Np.nan else Np.mean x.

(** [_run_algo(coarse, algorithm, dimension, tolerance, **kwargs)]
    (lines 221-245). *)
Definition _run_algo (coarse : nparray) (algorithm : algorithm_t)
           (dimension : nat) (tolerance : float) (kw : kwargs) : Py float :=
  match coarse with
  | Arr1 _ =>
      call_algorithm algorithm
        (Est_args coarse 1 dimension tolerance None None kw)
  | Arr2 rows =>
      vals <- for_each
                (fun row =>
                   call_algorithm algorithm
                     (Est_args (Arr1 row) 1 dimension tolerance None None kw))
                rows ;;
      ret (_validmean vals)
  end.

(** A Python list indexed by a numpy array of booleans. *)
Definition list_index_msg : string :=
  "only integer scalar arrays can be converted to a scalar index".

(** [info["Scale"][mask]]: the selected entries of an array (an
    [IndexError] when the mask has another length), a [TypeError] for a
    Python list. *)
Definition scale_getitem (scales : scales_t) (mask : list bool)
  : outcome (list Z) :=
  match scales with
  | Scales_list _ => Raises (TypeError list_index_msg)
  | Scales_ndarray factors =>
      if length mask =? length factors then Returns (Np.select factors mask)
      else Raises (OtherError "IndexError")
  end.

(** [_entropy_multiscale_plot(info)] (lines 332-344): a figure with its
    title and labels, then one curve of the finite values against their
    scale factors. *)
Definition _entropy_multiscale_plot (info : info_t) : Py unit :=
  call_matplotlib Plt_figure ;;;
  call_matplotlib (Fig_suptitle "Entropy values across scale factors") ;;;
  call_matplotlib (Plt_ylabel "Entropy values") ;;;
  call_matplotlib (Plt_xlabel "Scale") ;;;
  let finite := map Np.isfinite (Value info) in
  xs <- lift (scale_getitem (Scale info) finite) ;;
  call_matplotlib (Plt_plot xs (Np.select (Value info) finite) "#FF9800").

Definition multidimensional_msg : string :=
  "Multidimensional inputs (e.g., matrices or multichannel data) are not supported yet.".

(** The condition of the sanity check (line 186); [and] does not read
    [signal.ndim] when [isinstance] is false. *)
Definition sanity_check_fails (signal : signal_t) : bool :=
  is_ndarray_or_DataFrame signal &&
  match ndim signal with
  | Some n => 1 <? n
  | None => false
  end.

(** Lines 191-192: [if "delay" in kwargs.keys(): kwargs.pop("delay")]. *)
Definition pop_delay (kw : kwargs) : kwargs :=
  if bool_decide (is_Some (kw !! "delay"%string)) then delete "delay"%string kw else kw.

(** Lines 266-271: the finite values, then [np.trapz(mse) / len(mse)]. *)
Definition auc_of_finite (values : list float) : float :=
  let mse := Np.select values (map Np.isfinite values) in
  PrimFloat.div (Np.trapz mse) (Np.float_of_nat (length mse)).

(** The keywords that [_run_algo] is given explicitly at line 250 and that
    the caller's [**kwargs] may hold as well ([dimension] and [tolerance]
    are parameters of [entropy_multiscale], so [kwargs] never holds
    them). *)
Definition run_algo_clash (kw : kwargs) : list string :=
  List.filter (fun name : string => bool_decide (is_Some (kw !! name)))
              ["coarse"%string; "algorithm"%string].

(** The value of one scale factor in the comprehension of lines 248-264:
    the coarse-graining is evaluated as an argument, then [_run_algo] is
    called, which is a [TypeError] when [kwargs] repeats one of its
    explicit keywords. *)
Definition scale_value (signal : signal_t) (algorithm : algorithm_t)
           (dimension : nat) (tolerance : float) (kw : kwargs) (scale : Z)
  : Py float :=
  coarse <- call_complexity_coarsegraining signal scale (Some false) kw ;;
  match run_algo_clash kw with
  | [] => _run_algo coarse algorithm dimension tolerance kw
  | names => raise (TypeError_multiple_values "_run_algo" names)
  end.

(** [entropy_multiscale] (lines 13-277). *)
Definition entropy_multiscale (signal : signal_t) (scale : scale_arg)
           (dimension : nat) (tolerance : tolerance_arg)
           (approximate composite refined fuzzy show : bool) (kw : kwargs)
  : Py (float * info_t) :=
  if sanity_check_fails signal then raise (ValueError multidimensional_msg)
  else
    let kw := pop_delay kw in
    scales <- call_get_scales signal scale dimension ;;
    tol <- call_complexity_tolerance signal tolerance dimension ;;
    let algorithm := if approximate then Alg_approximate else Alg_sample in
    values <- for_each (scale_value signal algorithm dimension tol kw) (items scales) ;;
    let info := Info dimension scales tol values in
    let mse := auc_of_finite (Value info) in
    (if show then _entropy_multiscale_plot info else ret tt) ;;;
    ret (mse, info).

(** *** The per-scale methods (lines 350-400) *)

(** [len(y) < 10 ** dimension] and [y.size < 10 ** dimension]. *)
Definition too_few (n dimension : nat) : bool := n <? 10 ^ dimension.

(** [_entropy_multiscale_mse] (lines 350-357). *)
Definition _entropy_multiscale_mse (signal : signal_t) (tau : Z)
           (dimension : nat) (tolerance : float) (fuzzy : bool) (kw : kwargs)
  : Py float :=
  y <- call_complexity_coarsegraining signal tau None ∅ ;;
  if too_few (len y) dimension then ret Np.nan
  else call_entropy_sample
         (Est_args y 1 dimension tolerance (Some fuzzy) None kw).

(** The mask of line 371 and the mask of line 376. *)
Definition cmse_degenerate (v : float) : bool :=
  Np.eq v Np.inf || Np.eq v Np.neg_inf || Np.eq v Np.nan.
Definition cmse_kept (v : float) : bool :=
  Np.ne v Np.inf && Np.ne v Np.neg_inf && negb (Np.isnan v).

(** [len(np.where(mask)[0])]: the number of [True] entries. *)
Definition count_where (mask : list bool) : nat :=
  length (Np.select (seq 0 (length mask)) mask).

(** [_entropy_multiscale_cmse] (lines 360-378). *)
Definition _entropy_multiscale_cmse (signal : signal_t) (tau : Z)
           (dimension : nat) (tolerance : float) (fuzzy : bool) (kw : kwargs)
  : Py float :=
  y <- call_get_coarsegrained_rolling signal tau ;;
  if too_few (size y) dimension then ret Np.nan
  else
    mse_y <- for_each
               (fun row =>
                  call_entropy_sample
                    (Est_args (Arr1 row) 1 dimension tolerance (Some fuzzy) None kw))
               y ;;
    if count_where (map cmse_degenerate mse_y) =? length mse_y then ret Np.nan
    else ret (Np.mean (Np.select mse_y (map cmse_kept mse_y))).

(** [_entropy_multiscale_rcmse] (lines 381-400). *)
Definition _entropy_multiscale_rcmse (signal : signal_t) (tau : Z)
           (dimension : nat) (tolerance : float) (fuzzy : bool) (kw : kwargs)
  : Py float :=
  y <- call_get_coarsegrained_rolling signal tau ;;
  if too_few (size y) dimension then ret Np.nan
  else
    phi_ <- for_each
              (fun row =>
                 call_phi
                   (Est_args (Arr1 row) 1 dimension tolerance (Some fuzzy)
                             (Some false) kw))
              y ;;
    call_phi_divide (Np.mean (map fst phi_), Np.mean (map snd phi_)).

(** *** [_entropy_multiscale] (lines 283-329) *)

(** The three methods take [tau] by position and [**kwargs] after it: a
    ["tau"] key in [kwargs] is a [TypeError] at the call, raised in the
    name of the method that is called. *)
Definition call_method (callee : string) (kw : kwargs) (body : Py float) : Py float :=
  if bool_decide (is_Some (kw !! "tau"%string))
  then raise (TypeError_multiple_values callee ["tau"%string])
  else body.

(** The body of the loop of lines 297-315 for one scale factor. *)
Definition variant_value (signal : signal_t) (dimension : nat)
           (tolerance : float) (composite fuzzy refined : bool) (kw : kwargs)
           (tau : Z) : Py float :=
  if negb refined && negb composite then
    call_method "_entropy_multiscale_mse" kw
      (_entropy_multiscale_mse signal tau dimension tolerance fuzzy kw)
  else if negb refined && composite then
    call_method "_entropy_multiscale_cmse" kw
      (_entropy_multiscale_cmse signal tau dimension tolerance fuzzy kw)
  else
    call_method "_entropy_multiscale_rcmse" kw
      (_entropy_multiscale_rcmse signal tau dimension tolerance fuzzy kw).

(** Lines 317-323. *)
Definition auc_of_valid (mse_vals : list float) : float :=
  let mse := Np.select mse_vals (map (fun v => negb (Np.isnan v)) mse_vals) in
  let mse := Np.select mse (map (fun v => Np.ne v Np.inf && Np.ne v Np.neg_inf) mse) in
  PrimFloat.div (Np.trapz mse) (Np.float_of_nat (length mse)).

(** The plot hook of line 327 passes two arguments to a function of one. *)
Definition plot_msg : string :=
  "_entropy_multiscale_plot() takes 1 positional argument but 2 were given".

Definition _entropy_multiscale (signal : signal_t) (tolerance : float)
           (scale_factors : list Z) (dimension : nat)
           (composite fuzzy refined show : bool) (kw : kwargs)
  : Py (float * list float) :=
  mse_vals <- for_each
                (variant_value signal dimension tolerance composite fuzzy refined kw)
                scale_factors ;;
  let mse := auc_of_valid mse_vals in
  (if show then raise (TypeError plot_msg) else ret tt) ;;;
  ret (mse, mse_vals).

End Program.

Arguments call_algorithm E !algorithm a /.

(* ===================================================================== *)
(** ** Spec-side notions the properties are compared with *)
(* ===================================================================== *)

(** The trapezoidal rule over explicit abscissae [x] (what [np.trapz(y, x)]
    computes when [x] holds Python ints): the sum over adjacent points of
    [(x[i+1] - x[i]) * (y[i+1] + y[i]) / 2]. *)
Definition trapezoid_rule (x : list Z) (y : list float) : float :=
  Np.sum (map (fun p : (Z * Z) * (float * float) =>
                 let (dx, dy) := p in
                 PrimFloat.div
                   (PrimFloat.mul (Np.float_of_Z (fst dx - snd dx))
                                  (PrimFloat.add (fst dy) (snd dy)))
                   PrimFloat.two)
              (combine (Np.adjacent x) (Np.adjacent y))).

(** The positions [0, 1, ..., k-1]. *)
Definition positions (k : nat) : list Z := map Z.of_nat (seq 0 k).

(** A signal with more than one axis, whatever holds it: a list of lists,
    an array of two or more axes, a DataFrame. *)
Definition multidimensional (signal : signal_t) : Prop :=
  match signal with
  | Sig_list _ | Sig_Series _ => False
  | Sig_list_of_lists _ | Sig_DataFrame _ => True
  | Sig_ndarray shape _ => 1 < length shape
  end.

(** A call to an entropy estimator or to [_phi], with its arguments. *)
Definition estimator_args (c : call) : option est_args :=
  match c with
  | Call_entropy_sample a | Call_entropy_approximate a | Call_phi a => Some a
  | _ => None
  end.

(** The [**kwargs] forwarded by a call to [complexity_coarsegraining]. *)
Definition coarsegraining_kwargs (c : call) : option kwargs :=
  match c with
  | Call_complexity_coarsegraining _ _ _ kw => Some kw
  | _ => None
  end.

(** The calls that only the composite methods make. *)
Definition composite_call (c : call) : bool :=
  match c with
  | Call_get_coarsegrained_rolling _ _ | Call_phi _ | Call_phi_divide _ => true
  | _ => false
  end.

(* ===================================================================== *)
(** ** Test doubles for the collaborators *)
(* ===================================================================== *)

(** Collaborators simple enough to run the program by hand: a list of scale
    factors is handed back as it is, an int gives the array 1..n; the
    estimators echo the first sample of the array they are given, and the
    time-shifted
    stack of a signal is its rows (one row for a 1-D signal), so that any
    profile of per-row or per-scale values can be produced by choosing the
    signal. *)
Module Stub.

Definition samples (signal : signal_t) : list float :=
  match signal with
  | Sig_list xs | Sig_Series xs | Sig_ndarray _ xs => xs
  | Sig_list_of_lists rows | Sig_DataFrame rows => concat rows
  end.

Definition rows_of (signal : signal_t) : list (list float) :=
  match signal with
  | Sig_list xs | Sig_Series xs | Sig_ndarray _ xs => [xs]
  | Sig_list_of_lists rows | Sig_DataFrame rows => rows
  end.

Definition first (a : nparray) : float :=
  match a with
  | Arr1 (x :: _) => x
  | _ => Np.nan
  end.

Definition second (a : nparray) : float :=
  match a with
  | Arr1 (_ :: x :: _) => x
  | _ => Np.nan
  end.

(** Scale [s] keeps the samples from index [s - 1] on. *)
Definition coarse (signal : signal_t) (scale : Z) : nparray :=
  Arr1 (skipn (Z.to_nat (scale - 1)) (samples signal)).

Definition stub : Collaborators := {|
  _get_scales := fun _ scale _ =>
    match scale with
    | Scale_list l => Returns (Scales_list l)
    | Scale_int n => Returns (Scales_ndarray (map Z.of_nat (seq 1 (Z.to_nat n))))
    | Scale_str _ => Returns (Scales_ndarray [1%Z])
    end;
  complexity_tolerance := fun _ method _ =>
    match method with
    | Tol_float x => Returns x
    | Tol_str _ => Returns PrimFloat.one
    end;
  complexity_coarsegraining := fun signal scale _ _ => Returns (coarse signal scale);
  entropy_sample := fun a => Returns (first (arg_signal a));
  entropy_approximate := fun a => Returns (first (arg_signal a));
  _get_coarsegrained_rolling := fun signal _ => Returns (rows_of signal);
  _phi := fun a => Returns (first (arg_signal a), second (arg_signal a));
  _phi_divide := fun p => Returns (PrimFloat.div (snd p) (fst p));
  matplotlib := fun _ => Returns tt
|}.

End Stub.

(* ===================================================================== *)
(** ** What the properties speak of *)
(* ===================================================================== *)

(** The arguments the composite methods give the estimator for one row. *)
Definition row_args (dimension : nat) (tolerance : float) (fuzzy : bool)
           (approximate : option bool) (kw : kwargs) (row : list float) : est_args :=
  Est_args (Arr1 row) 1 dimension tolerance (Some fuzzy) approximate kw.

(** The calls one scale factor makes: the coarse-graining, then the chosen
    estimator, with [delay=1], no [fuzzy] keyword and the caller's
    [kwargs]. *)
Definition entry_call_ok (kw : kwargs) (c : call) : Prop :=
  composite_call c = false
  /\ (forall a, estimator_args c = Some a ->
                arg_delay a = 1%Z /\ arg_fuzzy a = None /\ arg_kwargs a = kw)
  /\ (forall a, coarsegraining_kwargs c = Some a -> a = kw).

(** Rejecting every multi-dimensional signal at once: the error of the
    sanity check, and an empty trace. *)
Definition rejects_every_multidimensional_signal : Prop :=
  forall (E : Collaborators) signal scale dimension tolerance
         (approximate composite refined fuzzy show : bool) (kw : kwargs),
    multidimensional signal ->
    entropy_multiscale E signal scale dimension tolerance
                       approximate composite refined fuzzy show kw
    = (Raises (ValueError multidimensional_msg), []).

(** The refined-composite combination: the φ pair of every row, the two
    components averaged separately over all rows, and one call to
    [_phi_divide] on the averaged pair, whose outcome is the value. *)
Definition rcmse_averages_then_divides
           (E : Collaborators) (signal : signal_t) (tau : Z) (dimension : nat)
           (tolerance : float) (fuzzy : bool) (kw : kwargs)
           (y : list (list float)) (phis : list (float * float)) : Prop :=
  let averaged := (Np.mean (map fst phis), Np.mean (map snd phis)) in
  _entropy_multiscale_rcmse E signal tau dimension tolerance fuzzy kw
  = (_phi_divide E averaged,
     Call_get_coarsegrained_rolling signal tau
     :: map (fun row => Call_phi
                          (row_args dimension tolerance fuzzy (Some false) kw row)) y
     ++ [Call_phi_divide averaged]).

(** The same for every signal, scale factor, dimension and tolerance. *)
Definition rcmse_always_averages_then_divides : Prop :=
  forall (E : Collaborators) signal tau dimension tolerance fuzzy (kw : kwargs)
         y phis,
    _get_coarsegrained_rolling E signal tau = Returns y ->
    Forall2 (fun row p =>
               _phi E (row_args dimension tolerance fuzzy (Some false) kw row)
               = Returns p) y phis ->
    rcmse_averages_then_divides E signal tau dimension tolerance fuzzy kw y phis.

(* ===================================================================== *)
(** ** Inputs used to run the program by hand *)
(* ===================================================================== *)

Section Inputs.

Local Open Scope float_scope.

Definition two_rows : signal_t := Sig_list_of_lists [[1; 2]; [3; 4]].
Definition matrix_2x3 : signal_t := Sig_ndarray [2; 3]%nat [1; 2; 3; 4; 5; 6].
Definition ramp : signal_t := Sig_list [0.5; 1.5; 1.5; 3].
Definition nothing_finite : signal_t := Sig_list [Np.nan; Np.inf; Np.neg_inf].
Definition with_delay : kwargs := <["delay"%string := PyInt 7]> ∅.

(** Signals used to run the methods by hand (with [dimension = 1], so
    that the threshold is 10 samples). *)
Definition four_samples : signal_t := Sig_list [1; 2; 3; 4].
Definition ten_samples : signal_t := Sig_list [1; 2; 3; 4; 5; 6; 7; 8; 9; 10].
Definition two_rows_of_five : signal_t :=
  Sig_list_of_lists [[1; 2; 3; 4; 5]; [3; 4; 5; 6; 7]].
Definition rows_mixed : signal_t :=
  Sig_list_of_lists [[1; 2; 3; 4]; [Np.inf; 2; 3; 4]; [2; 0; 0; 0]; [Np.nan; 1; 1; 1]].
Definition rows_nothing_finite : signal_t :=
  Sig_list_of_lists [[Np.nan; 2; 3; 4]; [Np.inf; 2; 3; 4]; [Np.neg_inf; 2; 3; 4]].

End Inputs.

(* ===================================================================== *)
(** ** Reading a trace *)
(* ===================================================================== *)

(** The entries of [l] on which [f] is defined, in order. *)
Fixpoint pick {A B : Type} (f : A -> option B) (l : list A) : list B :=
  match l with
  | [] => []
  | x :: l' =>
      match f x with
      | Some y => y :: pick f l'
      | None => pick f l'
      end
  end.

(** The two calls the entry point makes before its loop. *)
Definition setup_call (c : call) : bool :=
  match c with
  | Call_get_scales _ _ _ | Call_complexity_tolerance _ _ _ => true
  | _ => false
  end.

(** The scale factor of a call to [complexity_coarsegraining]. *)
Definition coarsegraining_scale (c : call) : option Z :=
  match c with
  | Call_complexity_coarsegraining _ scale _ _ => Some scale
  | _ => None
  end.

(** A call the loop of [entropy_multiscale] may make: the coarse-graining
    of the original signal with [show=False], or the selected estimator
    with [delay=1], the dimension, the tolerance and the keywords of the
    run, and no other keyword. *)
Definition loop_call_ok (signal : signal_t) (algorithm : algorithm_t)
           (dimension : nat) (tol : float) (kw : kwargs) (c : call) : Prop :=
  match c with
  | Call_complexity_coarsegraining s _ show k =>
      s = signal /\ show = Some false /\ k = kw
  | Call_entropy_sample a =>
      algorithm = Alg_sample
      /\ exists x, a = Est_args x 1 dimension tol None None kw
  | Call_entropy_approximate a =>
      algorithm = Alg_approximate
      /\ exists x, a = Est_args x 1 dimension tol None None kw
  | _ => False
  end.

(** A call one of the three per-scale methods may make. *)
Definition method_call_ok (signal : signal_t) (dimension : nat)
           (tolerance : float) (fuzzy : bool) (kw : kwargs) (c : call) : Prop :=
  match c with
  | Call_complexity_coarsegraining s _ show k =>
      s = signal /\ show = None /\ k = ∅
  | Call_get_coarsegrained_rolling s _ => s = signal
  | Call_entropy_sample a =>
      exists x, a = Est_args x 1 dimension tolerance (Some fuzzy) None kw
  | Call_phi a =>
      exists row, a = row_args dimension tolerance fuzzy (Some false) kw row
  | Call_phi_divide _ => True
  | _ => False
  end.

Definition is_entropy_sample (c : call) : bool :=
  match c with Call_entropy_sample _ => true | _ => false end.

Definition is_phi (c : call) : bool :=
  match c with Call_phi _ | Call_phi_divide _ => true | _ => false end.

Definition is_rolling (c : call) : bool :=
  match c with Call_get_coarsegrained_rolling _ _ => true | _ => false end.

(** The method [_entropy_multiscale] selects for [(refined, composite)]. *)
Definition selected_method (E : Collaborators) (signal : signal_t)
           (dimension : nat) (tolerance : float) (composite fuzzy refined : bool)
           (kw : kwargs) (tau : Z) : Py float :=
  match refined, composite with
  | true, _ => _entropy_multiscale_rcmse E signal tau dimension tolerance fuzzy kw
  | false, true => _entropy_multiscale_cmse E signal tau dimension tolerance fuzzy kw
  | false, false => _entropy_multiscale_mse E signal tau dimension tolerance fuzzy kw
  end.

(* ===================================================================== *)
(** ** Test doubles that fail, and one that stacks *)
(* ===================================================================== *)

Module Faulty.

(** An estimator that refuses an empty array. *)
Definition strict_first (a : est_args) : outcome float :=
  match arg_signal a with
  | Arr1 (x :: _) => Returns x
  | _ => Raises (ValueError "empty input")
  end.

Definition strict : Collaborators := {|
  _get_scales := _get_scales Stub.stub;
  complexity_tolerance := complexity_tolerance Stub.stub;
  complexity_coarsegraining := complexity_coarsegraining Stub.stub;
  entropy_sample := strict_first;
  entropy_approximate := strict_first;
  _get_coarsegrained_rolling := _get_coarsegrained_rolling Stub.stub;
  _phi := _phi Stub.stub;
  _phi_divide := _phi_divide Stub.stub;
  matplotlib := matplotlib Stub.stub
|}.

(** Scale selection fails. *)
Definition no_scales : Collaborators := {|
  _get_scales := fun _ _ _ => Raises (ValueError "no scale");
  complexity_tolerance := complexity_tolerance Stub.stub;
  complexity_coarsegraining := complexity_coarsegraining Stub.stub;
  entropy_sample := entropy_sample Stub.stub;
  entropy_approximate := entropy_approximate Stub.stub;
  _get_coarsegrained_rolling := _get_coarsegrained_rolling Stub.stub;
  _phi := _phi Stub.stub;
  _phi_divide := _phi_divide Stub.stub;
  matplotlib := matplotlib Stub.stub
|}.

(** Tolerance estimation fails. *)
Definition no_tolerance : Collaborators := {|
  _get_scales := _get_scales Stub.stub;
  complexity_tolerance := fun _ _ _ => Raises (ValueError "no tolerance");
  complexity_coarsegraining := complexity_coarsegraining Stub.stub;
  entropy_sample := entropy_sample Stub.stub;
  entropy_approximate := entropy_approximate Stub.stub;
  _get_coarsegrained_rolling := _get_coarsegrained_rolling Stub.stub;
  _phi := _phi Stub.stub;
  _phi_divide := _phi_divide Stub.stub;
  matplotlib := matplotlib Stub.stub
|}.

(** With [method="timeshift"] among the keywords the coarse-graining is a
    2-D stack (the rows of the signal), as for the stub's rolling
    coarse-graining. *)
Definition timeshift : Collaborators := {|
  _get_scales := _get_scales Stub.stub;
  complexity_tolerance := complexity_tolerance Stub.stub;
  complexity_coarsegraining := fun signal scale _ kw =>
    match kw !! "method"%string with
    | Some (PyStr "timeshift") => Returns (Arr2 (Stub.rows_of signal))
    | _ => Returns (Stub.coarse signal scale)
    end;
  entropy_sample := entropy_sample Stub.stub;
  entropy_approximate := entropy_approximate Stub.stub;
  _get_coarsegrained_rolling := _get_coarsegrained_rolling Stub.stub;
  _phi := _phi Stub.stub;
  _phi_divide := _phi_divide Stub.stub;
  matplotlib := matplotlib Stub.stub
|}.

End Faulty.

Section MoreInputs.

Local Open Scope float_scope.

Definition with_method : kwargs :=
  <["method"%string := PyStr "timeshift"]> (<["delay"%string := PyInt 7]> ∅).
Definition with_tau : kwargs := <["tau"%string := PyInt 3]> ∅.
Definition with_coarse : kwargs :=
  <["coarse"%string := PyInt 1]> (<["delay"%string := PyInt 7]> ∅).
Definition rows_with_nan_phi : signal_t :=
  Sig_list_of_lists [[1; 2; 3; 4; 5]; [Np.nan; 4; 5; 6; 7]].

End MoreInputs.

(* ===================================================================== *)
(** ** Facts about float64 comparisons *)
(* ===================================================================== *)

Section FloatFacts.

Lemma eq_nan_never (v : float) : Np.eq v Np.nan = false.
Proof.
  unfold Np.eq, Np.nan. rewrite FloatAxioms.eqb_spec.
  change (Prim2SF PrimFloat.nan) with S754_nan.
  destruct (Prim2SF v) as [ | [] | | ]; reflexivity.
Qed.

Lemma is_infinity_eq (v : float) :
  PrimFloat.is_infinity v = Np.eq v Np.inf || Np.eq v Np.neg_inf.
Proof.
  unfold PrimFloat.is_infinity, Np.eq, Np.inf, Np.neg_inf.
  rewrite !FloatAxioms.eqb_spec, abs_spec.
  change (Prim2SF infinity) with (S754_infinity false).
  change (Prim2SF neg_infinity) with (S754_infinity true).
  destruct (Prim2SF v) as [ [] | [] | | [] ? ? ]; reflexivity.
Qed.

(** The mask of line 376 is [np.isfinite]. *)
Lemma cmse_kept_isfinite (v : float) : cmse_kept v = Np.isfinite v.
Proof.
  unfold cmse_kept, Np.isfinite, PrimFloat.is_finite, Np.ne, Np.isnan.
  rewrite is_infinity_eq. unfold Np.eq.
  destruct (PrimFloat.is_nan v), (PrimFloat.eqb v Np.inf),
    (PrimFloat.eqb v Np.neg_inf); reflexivity.
Qed.

(** The mask of line 371 only sees the infinities. *)
Lemma cmse_degenerate_is_infinity (v : float) :
  cmse_degenerate v = PrimFloat.is_infinity v.
Proof.
  unfold cmse_degenerate. rewrite eq_nan_never, is_infinity_eq.
  now rewrite orb_false_r.
Qed.

Lemma degenerate_not_finite (v : float) :
  cmse_degenerate v = true -> Np.isfinite v = false.
Proof.
  rewrite cmse_degenerate_is_infinity. unfold Np.isfinite, PrimFloat.is_finite.
  intros ->. now rewrite orb_true_r.
Qed.

End FloatFacts.

(* ===================================================================== *)
(** ** Facts about masks *)
(* ===================================================================== *)

Section Masks.

Context {A : Type}.

Lemma select_map (f : A -> bool) (xs : list A) :
  Np.select xs (map f xs) = List.filter f xs.
Proof.
  unfold Np.select. induction xs as [ | x xs IH]; simpl; [reflexivity | ].
  destruct (f x); simpl; now rewrite IH.
Qed.

Lemma length_select_seq (mask : list bool) (s : nat) :
  length (Np.select (seq s (length mask)) mask)
  = length (List.filter (fun b : bool => b) mask).
Proof.
  unfold Np.select. revert s.
  induction mask as [ | b mask IH]; intros s; simpl; [reflexivity | ].
  destruct b; simpl; now rewrite IH.
Qed.

Lemma count_where_map (f : A -> bool) (xs : list A) :
  count_where (map f xs) = length (List.filter f xs).
Proof.
  unfold count_where. rewrite length_select_seq.
  induction xs as [ | x xs IH]; simpl; [reflexivity | ].
  destruct (f x); simpl; now rewrite IH.
Qed.

Lemma filter_all_false (f : A -> bool) (xs : list A) :
  Forall (fun x => f x = false) xs -> List.filter f xs = [].
Proof.
  induction 1 as [ | x xs Hx _ IH]; simpl; [reflexivity | ].
  now rewrite Hx.
Qed.

Lemma filter_length_le (f : A -> bool) (xs : list A) :
  length (List.filter f xs) <= length xs.
Proof.
  induction xs as [ | x xs IH]; simpl; [lia | ].
  destruct (f x); simpl; lia.
Qed.

(** Every entry is counted only if every entry satisfies the test. *)
Lemma filter_length_all (f : A -> bool) (xs : list A) :
  length (List.filter f xs) = length xs -> Forall (fun x => f x = true) xs.
Proof.
  induction xs as [ | x xs IH]; simpl; intros H; [constructor | ].
  destruct (f x) eqn:Hx; simpl in H.
  - constructor; [assumption | apply IH; lia].
  - pose proof (filter_length_le f xs). lia.
Qed.

Lemma filter_ext_bool (f g : A -> bool) (xs : list A) :
  (forall x, f x = g x) -> List.filter f xs = List.filter g xs.
Proof.
  intros H. induction xs as [ | x xs IH]; simpl; [reflexivity | ].
  now rewrite H, IH.
Qed.

End Masks.

(* ===================================================================== *)
(** ** Facts about runs and their traces *)
(* ===================================================================== *)

Section Binds.

Context {A B : Type}.

Lemma bind_returns (m : Py A) (k : A -> Py B) (b : B) (t : list call) :
  bind m k = (Returns b, t) ->
  exists a t1 t2, m = (Returns a, t1) /\ k a = (Returns b, t2) /\ t = t1 ++ t2.
Proof.
  destruct m as [[a | e] t1]; simpl; [ | discriminate].
  destruct (k a) as [r t2] eqn:Hk. intros [= -> <-].
  now exists a, t1, t2.
Qed.

Lemma bind_trace (P : call -> Prop) (m : Py A) (k : A -> Py B) :
  Forall P (trace_of m) -> (forall a, Forall P (trace_of (k a))) ->
  Forall P (trace_of (bind m k)).
Proof.
  destruct m as [[a | e] t1]; simpl; intros Hm Hk; [ | exact Hm].
  specialize (Hk a). destruct (k a) as [r t2]; simpl in *.
  apply Forall_app; now split.
Qed.

End Binds.

Section Runs.

Context {A B : Type}.
Implicit Types (f : A -> Py B) (l : list A) (P : call -> Prop).

(** A comprehension that returns has one result per element, in order,
    and its trace is the traces of the elements, in order. *)
Lemma for_each_returns f l (ys : list B) (t : list call) :
  for_each f l = (Returns ys, t) ->
  Forall2 (fun x y => outcome_of (f x) = Returns y) l ys
  /\ t = concat (map (fun x => trace_of (f x)) l).
Proof.
  revert ys t. induction l as [ | x l IH]; simpl; intros ys t H.
  - injection H as <- <-. split; [constructor | reflexivity].
  - apply bind_returns in H as (y & t1 & t2 & Hx & H & ->).
    apply bind_returns in H as (ys' & t3 & t4 & Hl & H & ->).
    injection H as <- <-. apply IH in Hl as [Hall ->].
    rewrite Hx; simpl. rewrite app_nil_r. split; [ | reflexivity].
    constructor; [now rewrite Hx | assumption].
Qed.

Lemma for_each_trace P f l :
  (forall x, Forall P (trace_of (f x))) -> Forall P (trace_of (for_each f l)).
Proof.
  intros Hf. induction l as [ | x l IH]; simpl; [constructor | ].
  apply bind_trace; [apply Hf | intros y].
  apply bind_trace; [apply IH | intros ys; constructor].
Qed.

End Runs.

Lemma Forall2_same_length {A B : Type} (R : A -> B -> Prop) (l : list A) (l' : list B) :
  Forall2 R l l' -> length l = length l'.
Proof. induction 1; simpl; congruence. Qed.

(* ===================================================================== *)
(** ** The entry point, step by step *)
(* ===================================================================== *)

Section EntryPoint.

Variable E : Collaborators.

Lemma pop_delay_delete (kw : kwargs) : pop_delay kw = delete "delay"%string kw.
Proof.
  unfold pop_delay. case_bool_decide as H; [reflexivity | ].
  symmetry. apply delete_id. destruct (kw !! "delay"%string) eqn:Hl; [ | reflexivity].
  exfalso. apply H. now exists p.
Qed.

Lemma pop_delay_lookup (kw : kwargs) : pop_delay kw !! "delay"%string = None.
Proof. rewrite pop_delay_delete. apply lookup_delete_eq. Qed.

(** Every run that passes the sanity check starts by asking for the
    scale factors. *)
Lemma entry_first_call signal scale dimension tolerance
      approximate composite refined fuzzy show (kw : kwargs) :
  sanity_check_fails signal = false ->
  exists rest,
    trace_of (entropy_multiscale E signal scale dimension tolerance
                                 approximate composite refined fuzzy show kw)
    = Call_get_scales signal scale dimension :: rest.
Proof.
  intros Hs. unfold entropy_multiscale. rewrite Hs.
  unfold call_get_scales, perform.
  destruct (_get_scales E signal scale dimension) as [scales | e]; simpl.
  - match goal with |- context [let (r, t') := ?m in _] => destruct m as [r t'] end.
    now exists t'.
  - now exists [].
Qed.

(** What a returning run is made of. *)
Lemma entry_returns signal scale dimension tolerance
      approximate composite refined fuzzy show (kw : kwargs) mse info t :
  entropy_multiscale E signal scale dimension tolerance
                     approximate composite refined fuzzy show kw
  = (Returns (mse, info), t) ->
  exists tv,
    sanity_check_fails signal = false
    /\ _get_scales E signal scale dimension = Returns (Scale info)
    /\ complexity_tolerance E signal tolerance dimension = Returns (Tolerance info)
    /\ for_each (scale_value E signal
                   (if approximate then Alg_approximate else Alg_sample)
                   dimension (Tolerance info) (pop_delay kw)) (items (Scale info))
       = (Returns (Value info), tv)
    /\ Dimension info = dimension
    /\ mse = auc_of_finite (Value info).
Proof.
  unfold entropy_multiscale. destruct (sanity_check_fails signal); [discriminate | ].
  intros H.
  apply bind_returns in H as (scales & t1 & t2 & Hs & H & ->).
  apply bind_returns in H as (tol & t3 & t4 & Ht & H & ->).
  apply bind_returns in H as (values & t5 & t6 & Hv & H & ->).
  apply bind_returns in H as (u & t7 & t8 & _ & H & ->).
  injection H as <- <- <-. simpl.
  unfold call_get_scales, perform in Hs. injection Hs as Hs _.
  unfold call_complexity_tolerance, perform in Ht. injection Ht as Ht _.
  exists t5. repeat split; assumption.
Qed.

(** Conversely: when the collaborators return, and the plot hook if it is
    asked for, so does the entry point. *)
Lemma entry_complete signal scale dimension tolerance
      (approximate composite refined fuzzy show : bool) (kw : kwargs)
      (scales : scales_t) (tol : float) (values : list float) (tv : list call) :
  sanity_check_fails signal = false ->
  _get_scales E signal scale dimension = Returns scales ->
  complexity_tolerance E signal tolerance dimension = Returns tol ->
  for_each (scale_value E signal
              (if approximate then Alg_approximate else Alg_sample)
              dimension tol (pop_delay kw)) (items scales)
  = (Returns values, tv) ->
  (show = true ->
   outcome_of (_entropy_multiscale_plot E (Info dimension scales tol values))
   = Returns tt) ->
  outcome_of (entropy_multiscale E signal scale dimension tolerance
                                 approximate composite refined fuzzy show kw)
  = Returns (auc_of_finite values, Info dimension scales tol values).
Proof.
  intros Hc Hs Ht Hv Hplot. unfold entropy_multiscale. rewrite Hc.
  unfold call_get_scales, call_complexity_tolerance, perform.
  rewrite Hs, Ht. cbn [bind]. rewrite Hv. cbn [bind Value].
  destruct show; [ | reflexivity].
  specialize (Hplot eq_refl).
  destruct (_entropy_multiscale_plot E (Info dimension scales tol values)) as [r tp].
  simpl in Hplot. subst r. reflexivity.
Qed.

(** The plot hook only calls matplotlib. *)
Lemma plot_calls (info : info_t) :
  Forall (fun c => exists p, c = Call_matplotlib p)
         (trace_of (_entropy_multiscale_plot E info)).
Proof.
  unfold _entropy_multiscale_plot.
  repeat (apply bind_trace; [constructor; [now eexists | constructor] | intros _]).
  apply bind_trace; [constructor | intros xs].
  constructor; [now eexists | constructor].
Qed.

Lemma call_algorithm_ok algorithm a :
  arg_delay a = 1%Z -> arg_fuzzy a = None ->
  Forall (entry_call_ok (arg_kwargs a)) (trace_of (call_algorithm E algorithm a)).
Proof.
  intros Hd Hf.
  destruct algorithm; simpl; (constructor; [ | constructor]);
    (split; [reflexivity | split; [simpl; intros ? [= <-]; auto | discriminate]]).
Qed.

Lemma scale_value_ok signal algorithm dimension tol (kw : kwargs) s :
  Forall (entry_call_ok kw) (trace_of (scale_value E signal algorithm dimension tol kw s)).
Proof.
  unfold scale_value. apply bind_trace.
  - constructor; [ | constructor].
    split; [reflexivity | split; [discriminate | now intros ? [= <-]]].
  - intros coarse. destruct (run_algo_clash kw); [ | constructor].
    destruct coarse as [values | rows]; simpl.
    + apply (call_algorithm_ok algorithm
               (Est_args (Arr1 values) 1 dimension tol None None kw)); reflexivity.
    + apply bind_trace; [ | intros; constructor].
      apply for_each_trace. intros row.
      apply (call_algorithm_ok algorithm
               (Est_args (Arr1 row) 1 dimension tol None None kw)); reflexivity.
Qed.

Lemma entry_trace_ok signal scale dimension tolerance
      approximate composite refined fuzzy show (kw : kwargs) :
  Forall (entry_call_ok (pop_delay kw))
         (trace_of (entropy_multiscale E signal scale dimension tolerance
                                       approximate composite refined fuzzy show kw)).
Proof.
  unfold entropy_multiscale.
  destruct (sanity_check_fails signal); [constructor | ].
  apply bind_trace; [constructor; [now repeat split | constructor] | intros scales].
  apply bind_trace; [constructor; [now repeat split | constructor] | intros tol].
  apply bind_trace; [apply for_each_trace; intros s; apply scale_value_ok | intros values].
  apply bind_trace; [ | intros; constructor].
  destruct show; [ | constructor].
  eapply List.Forall_impl; [ | apply plot_calls].
  intros c [p ->]. now repeat split.
Qed.

End EntryPoint.

(* ===================================================================== *)
(** ** The aggregation of the profile (lines 266-271) *)
(* ===================================================================== *)

Section Aggregation.

(** With the default [dx=1.0], [np.trapz(y)] is the trapezoidal rule over
    the positions of the entries. *)
Lemma trapezoid_terms (s : nat) (y : list float) :
  map (fun p : (Z * Z) * (float * float) =>
         let (dx, dy) := p in
         PrimFloat.div
           (PrimFloat.mul (Np.float_of_Z (fst dx - snd dx))
                          (PrimFloat.add (fst dy) (snd dy)))
           PrimFloat.two)
      (combine (Np.adjacent (map Z.of_nat (seq s (length y)))) (Np.adjacent y))
  = map (fun p : float * float =>
           PrimFloat.div (PrimFloat.mul PrimFloat.one (PrimFloat.add (fst p) (snd p)))
                         PrimFloat.two)
        (Np.adjacent y).
Proof.
  revert s. induction y as [ | a y IH]; intros s; [reflexivity | ].
  destruct y as [ | b r]; [reflexivity | ].
  specialize (IH (S s)). unfold Np.adjacent in *.
  cbn [length seq map tl combine fst snd] in *.
  rewrite IH. f_equal.
  replace (Z.of_nat (S s) - Z.of_nat s)%Z with 1%Z by lia.
  reflexivity.
Qed.

Lemma trapz_positions (y : list float) :
  Np.trapz y = trapezoid_rule (positions (length y)) y.
Proof.
  unfold Np.trapz, trapezoid_rule, positions. now rewrite trapezoid_terms.
Qed.

Lemma auc_of_finite_spec (values : list float) :
  auc_of_finite values
  = PrimFloat.div
      (trapezoid_rule (positions (length (List.filter Np.isfinite values)))
                      (List.filter Np.isfinite values))
      (Np.float_of_nat (length (List.filter Np.isfinite values))).
Proof. unfold auc_of_finite. now rewrite select_map, trapz_positions. Qed.

Lemma auc_of_nothing_finite (values : list float) :
  Forall (fun v => Np.isfinite v = false) values -> auc_of_finite values = Np.nan.
Proof.
  intros H. unfold auc_of_finite. rewrite select_map, (filter_all_false _ _ H).
  reflexivity.
Qed.

Lemma exists_finite_kept (values : list float) :
  Exists (fun v => Np.isfinite v = true) values ->
  0 < length (List.filter Np.isfinite values).
Proof.
  induction 1 as [v values Hv | v values _ IH]; simpl.
  - rewrite Hv. simpl. lia.
  - destruct (Np.isfinite v); simpl; lia.
Qed.

End Aggregation.

(* ===================================================================== *)
(** ** Properties of the entry point *)
(* ===================================================================== *)

Section EntryPointProperties.

Local Open Scope float_scope.

(** C1 (what the code does instead): [entropy_multiscale] never reads
    [composite], [refined] or [fuzzy].  Whatever their values the run is
    the run with all three false; it never calls the time-shifted
    coarse-graining, [_phi] or [_phi_divide], and no estimator call
    carries a [fuzzy] keyword. *)
Theorem entropy_multiscale_ignores_variant_flags
        (E : Collaborators) signal scale dimension tolerance
        (approximate composite refined fuzzy show : bool) (kw : kwargs) :
  entropy_multiscale E signal scale dimension tolerance
                     approximate composite refined fuzzy show kw
  = entropy_multiscale E signal scale dimension tolerance
                       approximate false false false show kw
  /\ Forall (fun c => composite_call c = false
                      /\ forall a, estimator_args c = Some a -> arg_fuzzy a = None)
            (trace_of (entropy_multiscale E signal scale dimension tolerance
                                          approximate composite refined fuzzy show kw)).
Proof.
  split; [reflexivity | ].
  eapply List.Forall_impl; [ | apply entry_trace_ok].
  intros c (Hc & Ha & _). split; [exact Hc | ].
  intros a Hca. now destruct (Ha a Hca) as (_ & Hf & _).
Qed.

(** The sibling [_entropy_multiscale] does dispatch on the two flags and
    forwards [fuzzy]. *)
Lemma variant_value_dispatch (E : Collaborators) signal dimension tolerance
      (composite fuzzy refined : bool) (kw : kwargs) tau :
  kw !! "tau"%string = None ->
  variant_value E signal dimension tolerance composite fuzzy refined kw tau
  = match refined, composite with
    | true, _ => _entropy_multiscale_rcmse E signal tau dimension tolerance fuzzy kw
    | false, true => _entropy_multiscale_cmse E signal tau dimension tolerance fuzzy kw
    | false, false => _entropy_multiscale_mse E signal tau dimension tolerance fuzzy kw
    end.
Proof.
  intros Hkw. unfold variant_value, call_method.
  rewrite bool_decide_eq_false_2; [now destruct refined, composite | ].
  rewrite Hkw. now intros [v Hv].
Qed.

(** The two on a run, with [composite=True] and [fuzzy=True]: the entry
    point coarse-grains once and calls the estimator without [fuzzy]; the
    sibling builds the time-shifted stack and forwards [fuzzy]. *)
Example variant_flags_run :
  trace_of (entropy_multiscale Stub.stub ten_samples (Scale_list [2]%Z) 1
                               (Tol_float 0.25) false true false true false ∅)
  = [ Call_get_scales ten_samples (Scale_list [2]%Z) 1;
      Call_complexity_tolerance ten_samples (Tol_float 0.25) 1;
      Call_complexity_coarsegraining ten_samples 2 (Some false) ∅;
      Call_entropy_sample
        (Est_args (Arr1 [2; 3; 4; 5; 6; 7; 8; 9; 10]) 1 1 0.25 None None ∅) ]
  /\ trace_of (_entropy_multiscale Stub.stub ten_samples 0.25 [2]%Z 1
                                   true true false false ∅)
     = [ Call_get_coarsegrained_rolling ten_samples 2;
         Call_entropy_sample
           (Est_args (Arr1 [1; 2; 3; 4; 5; 6; 7; 8; 9; 10]) 1 1 0.25
                     (Some true) None ∅) ].
Proof. split; reflexivity. Qed.

(** C8 (counterexample): a 2-row matrix given as a Python list of lists is
    not an [ndarray] or a [DataFrame], so it passes the sanity check and
    the run goes on to ask for the scale factors. *)
Lemma list_of_lists_not_rejected : ~ rejects_every_multidimensional_signal.
Proof.
  intros H.
  specialize (H Stub.stub two_rows (Scale_str "default") 2%nat (Tol_str "sd")
                false false false false false ∅ I).
  destruct (entry_first_call Stub.stub two_rows (Scale_str "default") 2%nat
              (Tol_str "sd") false false false false false ∅ eq_refl)
    as [rest Hrest].
  rewrite H in Hrest. discriminate Hrest.
Qed.

(** C8 (amended): for every multi-dimensional numpy array or pandas
    DataFrame, [entropy_multiscale] raises the [ValueError] of the sanity
    check at once: no collaborator has been called, so neither scales,
    tolerance nor any entropy has been computed. *)
Theorem multidimensional_array_rejected
        (E : Collaborators) signal scale dimension tolerance
        (approximate composite refined fuzzy show : bool) (kw : kwargs) :
  is_ndarray_or_DataFrame signal = true ->
  multidimensional signal ->
  entropy_multiscale E signal scale dimension tolerance
                     approximate composite refined fuzzy show kw
  = (Raises (ValueError multidimensional_msg), []).
Proof.
  intros Hi Hm. unfold entropy_multiscale.
  replace (sanity_check_fails signal) with true; [reflexivity | ].
  unfold sanity_check_fails. rewrite Hi.
  destruct signal as [ | | shape data | | ]; try discriminate Hi; simpl in *.
  - symmetry. now apply Nat.ltb_lt.
  - reflexivity.
Qed.

Lemma multidimensional_array_rejected_witness :
  entropy_multiscale Stub.stub matrix_2x3 (Scale_str "default") 2%nat (Tol_str "sd")
                     false false false false false ∅
  = (Raises (ValueError multidimensional_msg), []).
Proof.
  apply multidimensional_array_rejected; [reflexivity | simpl; lia].
Defined.

(** C9: when [entropy_multiscale] returns, [info["Scale"]] and
    [info["Value"]] have the same length, and the value at each position
    is the one computed for the scale factor at that position. *)
Theorem profile_aligned_with_scales
        (E : Collaborators) signal scale dimension tolerance
        (approximate composite refined fuzzy show : bool) (kw : kwargs)
        mse info t :
  entropy_multiscale E signal scale dimension tolerance
                     approximate composite refined fuzzy show kw
  = (Returns (mse, info), t) ->
  length (items (Scale info)) = length (Value info)
  /\ Forall2 (fun s v =>
                outcome_of (scale_value E signal
                              (if approximate then Alg_approximate else Alg_sample)
                              dimension (Tolerance info) (pop_delay kw) s)
                = Returns v)
             (items (Scale info)) (Value info).
Proof.
  intros H. apply entry_returns in H as (tv & _ & _ & _ & Hv & _).
  apply for_each_returns in Hv as [Hall _].
  split; [exact (Forall2_same_length _ _ _ Hall) | exact Hall].
Qed.

Lemma profile_aligned_with_scales_witness :
  exists mse info t,
    entropy_multiscale Stub.stub ramp (Scale_int 3) 2%nat (Tol_str "sd")
                       false false false false false ∅
    = (Returns (mse, info), t)
    /\ items (Scale info) = [1; 2; 3]%Z
    /\ Value info = [0.5; 1.5; 1.5]
    /\ length (items (Scale info)) = length (Value info).
Proof.
  eexists _, _, _. split; [reflexivity | ].
  split; [reflexivity | ]. split; [reflexivity | ].
  exact (proj1 (profile_aligned_with_scales Stub.stub ramp (Scale_int 3) 2%nat
                  (Tol_str "sd") false false false false false ∅ _ _ _ eq_refl)).
Defined.

End EntryPointProperties.

Section IndexAndKeywords.

Local Open Scope float_scope.

(** C6: when the profile holds at least one finite value, the returned
    index is the trapezoidal rule over the finite entries, placed in
    order at the positions 0, 1, ..., k-1 (the scale factors play no
    part), divided by the number k of finite entries. *)
Theorem index_is_normalised_trapezoid
        (E : Collaborators) signal scale dimension tolerance
        (approximate composite refined fuzzy show : bool) (kw : kwargs)
        mse info t :
  entropy_multiscale E signal scale dimension tolerance
                     approximate composite refined fuzzy show kw
  = (Returns (mse, info), t) ->
  Exists (fun v => Np.isfinite v = true) (Value info) ->
  let kept := List.filter Np.isfinite (Value info) in
  (0 < length kept)%nat
  /\ mse = trapezoid_rule (positions (length kept)) kept
           / Np.float_of_nat (length kept).
Proof.
  intros H Hfin kept. split; [now apply exists_finite_kept | ].
  apply entry_returns in H as (tv & _ & _ & _ & _ & _ & ->).
  apply auc_of_finite_spec.
Qed.

Lemma index_is_normalised_trapezoid_witness :
  outcome_of (entropy_multiscale Stub.stub ramp (Scale_list [4; 2; 9; 3]%Z) 2%nat
                                 (Tol_float 0.25) false false false false false ∅)
  = Returns (1.25, Info 2 (Scales_list [4; 2; 9; 3]%Z) 0.25 [3; 1.5; Np.nan; 1.5])
  /\ (0 < 3)%nat
  /\ 1.25 = trapezoid_rule [0; 1; 2]%Z [3; 1.5; 1.5] / 3.
Proof.
  split; [reflexivity | ].
  change (let kept := List.filter Np.isfinite
                        (Value (Info 2 (Scales_list [4; 2; 9; 3]%Z) 0.25 [3; 1.5; Np.nan; 1.5])) in
          (0 < length kept)%nat
          /\ 1.25 = trapezoid_rule (positions (length kept)) kept
                    / Np.float_of_nat (length kept)).
  apply (index_is_normalised_trapezoid Stub.stub ramp
           (Scale_list [4; 2; 9; 3]%Z) 2%nat (Tol_float 0.25)
           false false false false false ∅
           1.25 (Info 2 (Scales_list [4; 2; 9; 3]%Z) 0.25 [3; 1.5; Np.nan; 1.5])
           (trace_of (entropy_multiscale Stub.stub ramp (Scale_list [4; 2; 9; 3]%Z)
                        2%nat (Tol_float 0.25) false false false false false ∅))).
  - reflexivity.
  - apply Exists_cons_hd. reflexivity.
Defined.

(** C7: when every collaborator returns, and the plot hook if [show] asks
    for it, and every entry of the profile is non-finite,
    [entropy_multiscale] returns normally, and the index it returns is
    [nan]: the aggregation of lines 266-271 neither raises nor gives
    zero. *)
Theorem index_of_nothing_finite_is_nan
        (E : Collaborators) signal scale dimension tolerance
        (approximate composite refined fuzzy show : bool) (kw : kwargs)
        (scales : scales_t) (tol : float) (values : list float) (tv : list call) :
  sanity_check_fails signal = false ->
  _get_scales E signal scale dimension = Returns scales ->
  complexity_tolerance E signal tolerance dimension = Returns tol ->
  for_each (scale_value E signal
              (if approximate then Alg_approximate else Alg_sample)
              dimension tol (pop_delay kw)) (items scales)
  = (Returns values, tv) ->
  Forall (fun v => Np.isfinite v = false) values ->
  (show = true ->
   outcome_of (_entropy_multiscale_plot E (Info dimension scales tol values))
   = Returns tt) ->
  outcome_of (entropy_multiscale E signal scale dimension tolerance
                                 approximate composite refined fuzzy show kw)
  = Returns (Np.nan, Info dimension scales tol values).
Proof.
  intros Hc Hs Ht Hv Hall Hplot.
  rewrite (entry_complete E signal scale dimension tolerance approximate
             composite refined fuzzy show kw scales tol values tv Hc Hs Ht Hv Hplot).
  now rewrite (auc_of_nothing_finite values Hall).
Qed.

Lemma index_of_nothing_finite_is_nan_witness :
  outcome_of (entropy_multiscale Stub.stub nothing_finite (Scale_int 3) 2%nat
                                 (Tol_float 0.25) false false false false true ∅)
  = Returns (Np.nan,
             Info 2 (Scales_ndarray [1; 2; 3]%Z) 0.25 [Np.nan; Np.inf; Np.neg_inf])
  /\ outcome_of (entropy_multiscale Stub.stub nothing_finite (Scale_list [1; 2; 3]%Z)
                                    2%nat (Tol_float 0.25)
                                    false false false false false ∅)
     = Returns (Np.nan,
                Info 2 (Scales_list [1; 2; 3]%Z) 0.25 [Np.nan; Np.inf; Np.neg_inf]).
Proof.
  split.
  - eapply index_of_nothing_finite_is_nan;
      [reflexivity | reflexivity | reflexivity | reflexivity | | reflexivity].
    repeat constructor.
  - eapply index_of_nothing_finite_is_nan;
      [reflexivity | reflexivity | reflexivity | reflexivity | | discriminate].
    repeat constructor.
Defined.

(** C10: a ["delay"] keyword passed to [entropy_multiscale] has no
    effect: the run is the run without it, the dictionary forwarded to
    [complexity_coarsegraining] and to the estimator no longer holds the
    key, and every estimator call is made with [delay=1]. *)
Theorem delay_keyword_discarded
        (E : Collaborators) signal scale dimension tolerance
        (approximate composite refined fuzzy show : bool) (kw : kwargs) :
  entropy_multiscale E signal scale dimension tolerance
                     approximate composite refined fuzzy show kw
  = entropy_multiscale E signal scale dimension tolerance
                       approximate composite refined fuzzy show
                       (delete "delay"%string kw)
  /\ Forall (fun c =>
               (forall a, estimator_args c = Some a ->
                          arg_delay a = 1%Z /\ arg_kwargs a !! "delay"%string = None)
               /\ (forall k, coarsegraining_kwargs c = Some k ->
                             k !! "delay"%string = None))
            (trace_of (entropy_multiscale E signal scale dimension tolerance
                                          approximate composite refined fuzzy show kw)).
Proof.
  split.
  - unfold entropy_multiscale.
    now rewrite !pop_delay_delete, delete_delete_eq.
  - eapply List.Forall_impl; [ | apply entry_trace_ok].
    intros c (_ & Ha & Hk). split.
    + intros a Hca. destruct (Ha a Hca) as (Hd & _ & ->).
      split; [exact Hd | apply pop_delay_lookup].
    + intros k Hck. rewrite (Hk k Hck). apply pop_delay_lookup.
Qed.

(** The same on a run: with [delay=7] among the keywords, the estimator
    is still called with [delay=1] and an empty [kwargs]. *)
Example delay_keyword_discarded_run :
  trace_of (entropy_multiscale Stub.stub ramp (Scale_list [2]%Z) 2%nat (Tol_float 0.25)
                               false false false false false with_delay)
  = [ Call_get_scales ramp (Scale_list [2]%Z) 2;
      Call_complexity_tolerance ramp (Tol_float 0.25) 2;
      Call_complexity_coarsegraining ramp 2 (Some false) ∅;
      Call_entropy_sample (Est_args (Arr1 [1.5; 1.5; 3]) 1 2 0.25 None None ∅) ].
Proof. reflexivity. Qed.

End IndexAndKeywords.

(* ===================================================================== *)
(** ** The per-scale methods *)
(* ===================================================================== *)

Section Methods.

Variable E : Collaborators.

(** A comprehension whose body is one collaborator call per element. *)
Lemma for_each_perform {A B : Type} (c : A -> call) (r : A -> outcome B)
      (l : list A) (ys : list B) :
  Forall2 (fun x y => r x = Returns y) l ys ->
  for_each (fun x => perform (c x) (r x)) l = (Returns ys, map c l).
Proof.
  induction 1 as [ | x y l ys Hx _ IH]; simpl; [reflexivity | ].
  rewrite IH. unfold perform. rewrite Hx. simpl. now rewrite app_nil_r.
Qed.

Lemma too_few_true n dimension : n < 10 ^ dimension -> too_few n dimension = true.
Proof. intros H. now apply Nat.ltb_lt. Qed.

Lemma too_few_false n dimension : 10 ^ dimension <= n -> too_few n dimension = false.
Proof. intros H. now apply Nat.ltb_ge. Qed.

(** *** MSE *)

Lemma mse_run signal tau dimension tolerance fuzzy (kw : kwargs) y :
  complexity_coarsegraining E signal tau None ∅ = Returns y ->
  _entropy_multiscale_mse E signal tau dimension tolerance fuzzy kw
  = if too_few (len y) dimension
    then (Returns Np.nan, [Call_complexity_coarsegraining signal tau None ∅])
    else (entropy_sample E (Est_args y 1 dimension tolerance (Some fuzzy) None kw),
          [Call_complexity_coarsegraining signal tau None ∅;
           Call_entropy_sample (Est_args y 1 dimension tolerance (Some fuzzy) None kw)]).
Proof.
  intros Hy. unfold _entropy_multiscale_mse, call_complexity_coarsegraining, perform.
  rewrite Hy. simpl. now destruct (too_few (len y) dimension).
Qed.

(** *** CMSE *)

(** The value of lines 371-378 is the mean of the finite estimates. *)
Lemma cmse_combination (mse_y : list float) :
  (if count_where (map cmse_degenerate mse_y) =? length mse_y
   then Np.nan
   else Np.mean (Np.select mse_y (map cmse_kept mse_y)))
  = Np.mean (List.filter Np.isfinite mse_y).
Proof.
  rewrite count_where_map, select_map.
  rewrite (filter_ext_bool cmse_kept Np.isfinite mse_y cmse_kept_isfinite).
  destruct (Nat.eqb_spec (length (List.filter cmse_degenerate mse_y)) (length mse_y))
    as [Hall | _]; [ | reflexivity].
  apply filter_length_all in Hall.
  rewrite (filter_all_false Np.isfinite mse_y); [reflexivity | ].
  eapply List.Forall_impl; [ | exact Hall]. apply degenerate_not_finite.
Qed.

Lemma cmse_run signal tau dimension tolerance fuzzy (kw : kwargs) y ests :
  _get_coarsegrained_rolling E signal tau = Returns y ->
  Forall2 (fun row v =>
             entropy_sample E (row_args dimension tolerance fuzzy None kw row)
             = Returns v) y ests ->
  _entropy_multiscale_cmse E signal tau dimension tolerance fuzzy kw
  = if too_few (size y) dimension
    then (Returns Np.nan, [Call_get_coarsegrained_rolling signal tau])
    else (Returns (Np.mean (List.filter Np.isfinite ests)),
          Call_get_coarsegrained_rolling signal tau
          :: map (fun row => Call_entropy_sample
                               (row_args dimension tolerance fuzzy None kw row)) y).
Proof.
  intros Hy Hests.
  pose proof (for_each_perform
                (fun row => Call_entropy_sample
                              (row_args dimension tolerance fuzzy None kw row))
                (fun row => entropy_sample E
                              (row_args dimension tolerance fuzzy None kw row))
                y ests Hests) as Hrows.
  unfold _entropy_multiscale_cmse, call_get_coarsegrained_rolling, call_entropy_sample.
  unfold row_args in Hrows |- *.
  rewrite Hy. unfold perform at 1. cbn [bind].
  destruct (too_few (size y) dimension); [reflexivity | ].
  rewrite Hrows. cbn [bind]. rewrite <- (cmse_combination ests).
  destruct (count_where (map cmse_degenerate ests) =? length ests);
    simpl; rewrite ?app_nil_r; reflexivity.
Qed.

Lemma validmean_nothing_finite (x : list float) :
  Forall (fun v => Np.isfinite v = false) x -> _validmean x = Np.nan.
Proof.
  intros H. unfold _validmean.
  now rewrite select_map, (filter_all_false _ _ H).
Qed.

(** *** RCMSE *)

Lemma rcmse_run signal tau dimension tolerance fuzzy (kw : kwargs) y phis :
  _get_coarsegrained_rolling E signal tau = Returns y ->
  Forall2 (fun row p =>
             _phi E (row_args dimension tolerance fuzzy (Some false) kw row)
             = Returns p) y phis ->
  _entropy_multiscale_rcmse E signal tau dimension tolerance fuzzy kw
  = if too_few (size y) dimension
    then (Returns Np.nan, [Call_get_coarsegrained_rolling signal tau])
    else
      let averaged := (Np.mean (map fst phis), Np.mean (map snd phis)) in
      (_phi_divide E averaged,
       Call_get_coarsegrained_rolling signal tau
       :: map (fun row => Call_phi
                            (row_args dimension tolerance fuzzy (Some false) kw row)) y
       ++ [Call_phi_divide averaged]).
Proof.
  intros Hy Hphis.
  pose proof (for_each_perform
                (fun row => Call_phi
                              (row_args dimension tolerance fuzzy (Some false) kw row))
                (fun row => _phi E
                              (row_args dimension tolerance fuzzy (Some false) kw row))
                y phis Hphis) as Hrows.
  unfold _entropy_multiscale_rcmse, call_get_coarsegrained_rolling, call_phi.
  unfold row_args in Hrows |- *.
  rewrite Hy. unfold perform at 1. cbn [bind].
  destruct (too_few (size y) dimension); [reflexivity | ].
  rewrite Hrows. cbn [bind]. unfold perform. reflexivity.
Qed.

End Methods.

Section MethodProperties.

Local Open Scope float_scope.

Lemma cmse_too_few (E : Collaborators) signal tau dimension tolerance fuzzy
      (kw : kwargs) y :
  _get_coarsegrained_rolling E signal tau = Returns y ->
  too_few (size y) dimension = true ->
  _entropy_multiscale_cmse E signal tau dimension tolerance fuzzy kw
  = (Returns Np.nan, [Call_get_coarsegrained_rolling signal tau]).
Proof.
  intros Hy Hfew.
  unfold _entropy_multiscale_cmse, call_get_coarsegrained_rolling, perform.
  rewrite Hy. cbn [bind]. now rewrite Hfew.
Qed.

Lemma rcmse_too_few (E : Collaborators) signal tau dimension tolerance fuzzy
      (kw : kwargs) y :
  _get_coarsegrained_rolling E signal tau = Returns y ->
  too_few (size y) dimension = true ->
  _entropy_multiscale_rcmse E signal tau dimension tolerance fuzzy kw
  = (Returns Np.nan, [Call_get_coarsegrained_rolling signal tau]).
Proof.
  intros Hy Hfew.
  unfold _entropy_multiscale_rcmse, call_get_coarsegrained_rolling, perform.
  rewrite Hy. cbn [bind]. now rewrite Hfew.
Qed.

(** C4: with [y] the coarse-grained series at the scale factor, the plain
    (MSE) value is [nan], without any estimator call, when [y] has fewer
    than [10 ** dimension] samples; otherwise it is the outcome of one
    call to [entropy_sample] on [y], the only estimator call of the run. *)
Theorem mse_value
        (E : Collaborators) signal tau dimension tolerance fuzzy (kw : kwargs) y :
  complexity_coarsegraining E signal tau None ∅ = Returns y ->
  (len y < 10 ^ dimension ->
   _entropy_multiscale_mse E signal tau dimension tolerance fuzzy kw
   = (Returns Np.nan, [Call_complexity_coarsegraining signal tau None ∅]))
  /\ (10 ^ dimension <= len y ->
      _entropy_multiscale_mse E signal tau dimension tolerance fuzzy kw
      = (entropy_sample E (Est_args y 1 dimension tolerance (Some fuzzy) None kw),
         [Call_complexity_coarsegraining signal tau None ∅;
          Call_entropy_sample
            (Est_args y 1 dimension tolerance (Some fuzzy) None kw)])).
Proof.
  intros Hy. rewrite (mse_run E signal tau dimension tolerance fuzzy kw y Hy).
  split; intros Hn.
  - now rewrite (too_few_true _ _ Hn).
  - now rewrite (too_few_false _ _ Hn).
Qed.

Lemma mse_value_witness :
  outcome_of (_entropy_multiscale_mse Stub.stub ten_samples 2 1 0.25 false ∅)
  = Returns Np.nan
  /\ outcome_of (_entropy_multiscale_mse Stub.stub ten_samples 1 1 0.25 false ∅)
     = Returns 1.
Proof.
  split.
  - rewrite (proj1 (mse_value Stub.stub ten_samples 2 1 0.25 false ∅ _ eq_refl));
      [reflexivity | vm_compute; lia].
  - rewrite (proj2 (mse_value Stub.stub ten_samples 1 1 0.25 false ∅ _ eq_refl));
      [reflexivity | vm_compute; lia].
Defined.

(** C3: with [y] the stack of time-shifted rows, the composite (CMSE)
    value is [nan] when [y.size < 10 ** dimension]; otherwise it is the
    arithmetic mean ([np.mean]) of the per-row estimates that are
    finite. *)
Theorem cmse_value
        (E : Collaborators) signal tau dimension tolerance fuzzy (kw : kwargs) y :
  _get_coarsegrained_rolling E signal tau = Returns y ->
  (size y < 10 ^ dimension ->
   outcome_of (_entropy_multiscale_cmse E signal tau dimension tolerance fuzzy kw)
   = Returns Np.nan)
  /\ (10 ^ dimension <= size y ->
      forall ests,
        Forall2 (fun row v =>
                   entropy_sample E (row_args dimension tolerance fuzzy None kw row)
                   = Returns v) y ests ->
        outcome_of (_entropy_multiscale_cmse E signal tau dimension tolerance fuzzy kw)
        = Returns (Np.mean (List.filter Np.isfinite ests))).
Proof.
  intros Hy. split.
  - intros Hn.
    now rewrite (cmse_too_few E signal tau dimension tolerance fuzzy kw y Hy
                   (too_few_true _ _ Hn)).
  - intros Hn ests Hests.
    rewrite (cmse_run E signal tau dimension tolerance fuzzy kw y ests Hy Hests).
    now rewrite (too_few_false _ _ Hn).
Qed.

Lemma cmse_value_witness :
  outcome_of (_entropy_multiscale_cmse Stub.stub four_samples 1 1 0.25 false ∅)
  = Returns Np.nan
  /\ outcome_of (_entropy_multiscale_cmse Stub.stub rows_mixed 4 1 0.25 false ∅)
     = Returns 1.5.
Proof.
  split.
  - rewrite (proj1 (cmse_value Stub.stub four_samples 1 1 0.25 false ∅ _ eq_refl));
      [reflexivity | vm_compute; lia].
  - rewrite (proj2 (cmse_value Stub.stub rows_mixed 4 1 0.25 false ∅ _ eq_refl)
               ltac:(vm_compute; lia) [1; Np.inf; 2; Np.nan]);
      [reflexivity | repeat constructor].
Defined.

(** C5: when every per-row estimate of the composite (CMSE) method is
    non-finite ([nan], [inf] or [-inf], in any mixture), the value
    returned is [nan]; so is the value of [_validmean] on these
    estimates. *)
Theorem cmse_nothing_finite_is_nan
        (E : Collaborators) signal tau dimension tolerance fuzzy (kw : kwargs)
        y ests :
  _get_coarsegrained_rolling E signal tau = Returns y ->
  Forall2 (fun row v =>
             entropy_sample E (row_args dimension tolerance fuzzy None kw row)
             = Returns v) y ests ->
  Forall (fun v => Np.isfinite v = false) ests ->
  outcome_of (_entropy_multiscale_cmse E signal tau dimension tolerance fuzzy kw)
  = Returns Np.nan
  /\ _validmean ests = Np.nan.
Proof.
  intros Hy Hests Hall. split; [ | now apply validmean_nothing_finite].
  rewrite (cmse_run E signal tau dimension tolerance fuzzy kw y ests Hy Hests).
  destruct (too_few (size y) dimension); [reflexivity | ].
  now rewrite (filter_all_false Np.isfinite ests Hall).
Qed.

Lemma cmse_nothing_finite_is_nan_witness :
  outcome_of (_entropy_multiscale_cmse Stub.stub rows_nothing_finite 3 1 0.25 false ∅)
  = Returns Np.nan
  /\ _validmean [Np.nan; Np.inf; Np.neg_inf] = Np.nan.
Proof.
  apply (cmse_nothing_finite_is_nan Stub.stub rows_nothing_finite 3 1 0.25 false ∅
           [[Np.nan; 2; 3; 4]; [Np.inf; 2; 3; 4]; [Np.neg_inf; 2; 3; 4]]
           [Np.nan; Np.inf; Np.neg_inf]);
    [reflexivity | repeat constructor | repeat constructor].
Defined.

(** On a signal of 4 samples at scale 1 (a stack of one row, 4 elements)
    with [dimension = 2], the method returns [nan] without computing any
    φ, where averaging the φ pairs and dividing would have given 2. *)
Example rcmse_small_stack :
  _entropy_multiscale_rcmse Stub.stub four_samples 1 2 0.25 false ∅
  = (Returns Np.nan, [Call_get_coarsegrained_rolling four_samples 1])
  /\ _phi_divide Stub.stub (Np.mean [1], Np.mean [2]) = Returns 2.
Proof. split; reflexivity. Qed.

(** C2 (counterexample): below the threshold of [10 ** dimension]
    elements the refined-composite value is not obtained from any φ
    pair. *)
Lemma rcmse_small_stack_not_averaged : ~ rcmse_always_averages_then_divides.
Proof.
  intros H.
  specialize (H Stub.stub four_samples 1%Z 2%nat 0.25 false ∅
                [[1; 2; 3; 4]] [(1, 2)] eq_refl).
  unfold rcmse_averages_then_divides in H.
  rewrite (proj1 rcmse_small_stack) in H.
  assert (Hlen : forall A (a b : A * list call), a = b -> length (snd a) = length (snd b))
    by (intros A a b ->; reflexivity).
  apply Hlen in H; [discriminate H | repeat constructor].
Qed.

(** C2 (amended): when the stack of time-shifted rows holds at least
    [10 ** dimension] elements, the refined-composite value is obtained by
    computing the φ pair of every row, averaging the two components
    separately over all rows, and applying [_phi_divide] once, to the
    averaged pair; no entropy estimate of a row is computed. *)
Theorem rcmse_value
        (E : Collaborators) signal tau dimension tolerance fuzzy (kw : kwargs)
        y phis :
  _get_coarsegrained_rolling E signal tau = Returns y ->
  Forall2 (fun row p =>
             _phi E (row_args dimension tolerance fuzzy (Some false) kw row)
             = Returns p) y phis ->
  10 ^ dimension <= size y ->
  rcmse_averages_then_divides E signal tau dimension tolerance fuzzy kw y phis.
Proof.
  intros Hy Hphis Hn. unfold rcmse_averages_then_divides.
  rewrite (rcmse_run E signal tau dimension tolerance fuzzy kw y phis Hy Hphis).
  now rewrite (too_few_false _ _ Hn).
Qed.

Lemma rcmse_value_witness :
  rcmse_averages_then_divides Stub.stub two_rows_of_five 2 1 0.25 false ∅
    [[1; 2; 3; 4; 5]; [3; 4; 5; 6; 7]] [(1, 2); (3, 4)]
  /\ outcome_of (_entropy_multiscale_rcmse Stub.stub two_rows_of_five 2 1 0.25 false ∅)
     = Returns 1.5.
Proof.
  split; [ | reflexivity].
  apply rcmse_value; [reflexivity | repeat constructor | vm_compute; lia].
Defined.

End MethodProperties.

(* ===================================================================== *)
(** ** More on the runs of the entry point *)
(* ===================================================================== *)

Section Picking.

Context {A B : Type}.

Lemma pick_app (f : A -> option B) (l l' : list A) :
  pick f (l ++ l') = pick f l ++ pick f l'.
Proof.
  induction l as [ | x l IH]; simpl; [reflexivity | ].
  destruct (f x); simpl; now rewrite IH.
Qed.

Lemma pick_nothing (f : A -> option B) (l : list A) :
  Forall (fun x => f x = None) l -> pick f l = [].
Proof.
  induction 1 as [ | x l Hx _ IH]; simpl; [reflexivity | ]. now rewrite Hx.
Qed.

Lemma select_same_length (l : list A) (l' : list B) (mask : list bool) :
  length l = length l' ->
  length (Np.select l mask) = length (Np.select l' mask).
Proof.
  unfold Np.select. rewrite !length_map. revert l l'.
  induction mask as [ | b mask IH]; intros [ | x l] [ | y l']; simpl;
    try reflexivity; try discriminate.
  intros [= H]. destruct b; simpl; now rewrite (IH l l' H).
Qed.

End Picking.

Lemma filter_finite_all (l : list float) :
  Forall (fun v => Np.isfinite v = true) (List.filter Np.isfinite l).
Proof.
  induction l as [ | v l IH]; simpl; [constructor | ].
  destruct (Np.isfinite v) eqn:Hv; [constructor | ]; assumption.
Qed.

Section EntryRuns.

Variable E : Collaborators.

(** The run of one scale factor when an element of the comprehension
    raises: the elements before it have run, the ones after it have not. *)
Lemma for_each_raises {A B : Type} (f : A -> Py B) (pre post : list A) (x : A) (e : exn) :
  Forall (fun a => exists v, outcome_of (f a) = Returns v) pre ->
  outcome_of (f x) = Raises e ->
  for_each f (pre ++ x :: post)
  = (Raises e, concat (map (fun a => trace_of (f a)) pre) ++ trace_of (f x)).
Proof.
  intros Hpre Hx. induction Hpre as [ | a pre [v Ha] _ IH]; simpl.
  - destruct (f x) as [r t]; simpl in *. now subst r.
  - rewrite IH. destruct (f a) as [r t]; simpl in *. subst r. simpl.
    now rewrite app_assoc.
Qed.

(** Every run of the entry point that passes the sanity check, in full. *)
Lemma entry_run signal scale dimension tolerance
      (approximate composite refined fuzzy show : bool) (kw : kwargs) :
  sanity_check_fails signal = false ->
  entropy_multiscale E signal scale dimension tolerance
                     approximate composite refined fuzzy show kw
  = match _get_scales E signal scale dimension with
    | Raises e => (Raises e, [Call_get_scales signal scale dimension])
    | Returns scales =>
        match complexity_tolerance E signal tolerance dimension with
        | Raises e =>
            (Raises e, [Call_get_scales signal scale dimension;
                        Call_complexity_tolerance signal tolerance dimension])
        | Returns tol =>
            match for_each (scale_value E signal
                              (if approximate then Alg_approximate else Alg_sample)
                              dimension tol (pop_delay kw)) (items scales) with
            | (Raises e, tv) =>
                (Raises e, Call_get_scales signal scale dimension
                           :: Call_complexity_tolerance signal tolerance dimension
                           :: tv)
            | (Returns values, tv) =>
                let info := Info dimension scales tol values in
                let plot := if show then _entropy_multiscale_plot E info
                            else ret tt in
                (match outcome_of plot with
                 | Returns _ => Returns (auc_of_finite values, info)
                 | Raises e => Raises e
                 end,
                 Call_get_scales signal scale dimension
                 :: Call_complexity_tolerance signal tolerance dimension
                 :: tv ++ trace_of plot)
            end
        end
    end.
Proof.
  intros Hs. unfold entropy_multiscale. rewrite Hs.
  unfold call_get_scales, call_complexity_tolerance, perform.
  destruct (_get_scales E signal scale dimension) as [scales | e];
    cbn [bind]; [ | reflexivity].
  destruct (complexity_tolerance E signal tolerance dimension) as [tol | e];
    cbn [bind app]; [ | reflexivity].
  destruct (for_each _ (items scales)) as [[values | e] tv]; cbn [bind app];
    [ | reflexivity].
  cbn zeta. cbn [Value].
  destruct (if show then _ else _) as [[u | e] tp]; cbn [bind ret outcome_of trace_of fst snd];
    rewrite ?app_nil_r; reflexivity.
Qed.

Lemma call_algorithm_calls signal algorithm dimension tol (kw : kwargs) x :
  Forall (loop_call_ok signal algorithm dimension tol kw)
         (trace_of (call_algorithm E algorithm
                      (Est_args x 1 dimension tol None None kw))).
Proof.
  destruct algorithm; simpl; (constructor; [ | constructor]);
    (split; [reflexivity | now exists x]).
Qed.

Lemma run_algo_calls signal coarse algorithm dimension tol (kw : kwargs) :
  Forall (loop_call_ok signal algorithm dimension tol kw)
         (trace_of (_run_algo E coarse algorithm dimension tol kw)).
Proof.
  destruct coarse as [values | rows]; simpl.
  - apply call_algorithm_calls.
  - apply bind_trace; [ | intros; constructor].
    apply for_each_trace. intros row. apply call_algorithm_calls.
Qed.

Lemma scale_value_calls signal algorithm dimension tol (kw : kwargs) s :
  Forall (loop_call_ok signal algorithm dimension tol kw)
         (trace_of (scale_value E signal algorithm dimension tol kw s)).
Proof.
  unfold scale_value. apply bind_trace.
  - constructor; [now repeat split | constructor].
  - intros coarse. destruct (run_algo_clash kw); [ | constructor].
    apply run_algo_calls.
Qed.

Lemma loop_call_not_setup signal algorithm dimension tol (kw : kwargs) c :
  loop_call_ok signal algorithm dimension tol kw c -> setup_call c = false.
Proof. destruct c; simpl; intros H; try reflexivity; contradiction. Qed.

Lemma call_algorithm_no_coarsegraining algorithm a :
  Forall (fun c => coarsegraining_scale c = None)
         (trace_of (call_algorithm E algorithm a)).
Proof. destruct algorithm; simpl; now repeat constructor. Qed.

Lemma run_algo_no_coarsegraining coarse algorithm dimension tol (kw : kwargs) :
  Forall (fun c => coarsegraining_scale c = None)
         (trace_of (_run_algo E coarse algorithm dimension tol kw)).
Proof.
  destruct coarse as [values | rows]; simpl.
  - apply call_algorithm_no_coarsegraining.
  - apply bind_trace; [ | intros; constructor].
    apply for_each_trace. intros row. apply call_algorithm_no_coarsegraining.
Qed.

(** One scale factor coarse-grains once, at that scale factor. *)
Lemma scale_value_pick signal algorithm dimension tol (kw : kwargs) s :
  pick coarsegraining_scale
       (trace_of (scale_value E signal algorithm dimension tol kw s))
  = [s].
Proof.
  unfold scale_value, call_complexity_coarsegraining, perform.
  destruct (complexity_coarsegraining E signal s (Some false) kw) as [coarse | e];
    simpl; [ | reflexivity].
  destruct (run_algo_clash kw); [ | reflexivity].
  pose proof (run_algo_no_coarsegraining coarse algorithm dimension tol kw) as Hc.
  destruct (_run_algo E coarse algorithm dimension tol kw) as [r t]; simpl in *.
  f_equal. now apply pick_nothing.
Qed.

Lemma pick_scales signal algorithm dimension tol (kw : kwargs) (scales : list Z) :
  pick coarsegraining_scale
       (concat (map (fun s => trace_of (scale_value E signal algorithm dimension
                                                    tol kw s)) scales))
  = scales.
Proof.
  induction scales as [ | s scales IH]; simpl; [reflexivity | ].
  now rewrite pick_app, scale_value_pick, IH.
Qed.

End EntryRuns.

Section EntryPointExtras.

Local Open Scope float_scope.

(** X1: [show=True] only appends the plot hook to the run.  When the run
    without [show] raises, the run with [show] is the same run; when it
    returns [(mse, info)], the run with [show] makes the same calls,
    followed by those of [_entropy_multiscale_plot(info)], and returns the
    same [(mse, info)], unless the hook raises: then it raises the
    exception of the hook. *)
Theorem show_only_adds_the_plot
        (E : Collaborators) signal scale dimension tolerance
        (approximate composite refined fuzzy : bool) (kw : kwargs) :
  match entropy_multiscale E signal scale dimension tolerance
                           approximate composite refined fuzzy false kw with
  | (Raises e, t) =>
      entropy_multiscale E signal scale dimension tolerance
                         approximate composite refined fuzzy true kw
      = (Raises e, t)
  | (Returns (mse, info), t) =>
      entropy_multiscale E signal scale dimension tolerance
                         approximate composite refined fuzzy true kw
      = (match outcome_of (_entropy_multiscale_plot E info) with
         | Returns _ => Returns (mse, info)
         | Raises e => Raises e
         end,
         t ++ trace_of (_entropy_multiscale_plot E info))
  end.
Proof.
  destruct (sanity_check_fails signal) eqn:Hs.
  - unfold entropy_multiscale. now rewrite Hs.
  - rewrite !(entry_run E signal scale dimension tolerance approximate composite
                refined fuzzy _ kw Hs).
    destruct (_get_scales E signal scale dimension) as [scales | e];
      [ | reflexivity].
    destruct (complexity_tolerance E signal tolerance dimension) as [tol | e];
      [ | reflexivity].
    destruct (for_each _ (items scales)) as [[values | e] tv]; [ | reflexivity].
    cbn. now rewrite app_nil_r.
Qed.

(** X2: a run that passes the sanity check starts by asking for the scale
    factors; unless that fails, its second call asks for the tolerance;
    both are computed from the original signal, and no later call of the
    run asks for either again, however many scale factors there are. *)
Theorem scales_and_tolerance_computed_once
        (E : Collaborators) signal scale dimension tolerance
        (approximate composite refined fuzzy show : bool) (kw : kwargs) :
  sanity_check_fails signal = false ->
  exists rest,
    Forall (fun c => setup_call c = false) rest
    /\ trace_of (entropy_multiscale E signal scale dimension tolerance
                                    approximate composite refined fuzzy show kw)
       = match _get_scales E signal scale dimension with
         | Raises _ => [Call_get_scales signal scale dimension]
         | Returns _ => Call_get_scales signal scale dimension
                        :: Call_complexity_tolerance signal tolerance dimension
                        :: rest
         end.
Proof.
  intros Hs.
  rewrite (entry_run E signal scale dimension tolerance approximate composite
             refined fuzzy show kw Hs).
  destruct (_get_scales E signal scale dimension) as [scales | e];
    [ | now exists []].
  destruct (complexity_tolerance E signal tolerance dimension) as [tol | e];
    [ | now exists []].
  pose proof (for_each_trace
                (loop_call_ok signal
                   (if approximate then Alg_approximate else Alg_sample)
                   dimension tol (pop_delay kw))
                (scale_value E signal
                   (if approximate then Alg_approximate else Alg_sample)
                   dimension tol (pop_delay kw)) (items scales)
                (scale_value_calls E signal _ dimension tol (pop_delay kw))) as Ht.
  assert (Hloop : forall t,
             Forall (loop_call_ok signal
                       (if approximate then Alg_approximate else Alg_sample)
                       dimension tol (pop_delay kw)) t ->
             Forall (fun c => setup_call c = false) t).
  { intros t Hok. eapply List.Forall_impl; [ | exact Hok].
    apply loop_call_not_setup. }
  destruct (for_each _ (items scales)) as [[values | e] tv]; simpl in Ht.
  - eexists. split; [ | reflexivity].
    apply Forall_app. split; [now apply Hloop | ].
    destruct show; [ | constructor].
    eapply List.Forall_impl; [ | apply plot_calls]. now intros c [p ->].
  - exists tv. split; [now apply Hloop | reflexivity].
Qed.

Lemma scales_and_tolerance_computed_once_witness :
  exists rest,
    Forall (fun c => setup_call c = false) rest
    /\ trace_of (entropy_multiscale Stub.stub ramp (Scale_int 3) 2%nat (Tol_float 0.25)
                                    false false false false true ∅)
       = Call_get_scales ramp (Scale_int 3) 2
         :: Call_complexity_tolerance ramp (Tol_float 0.25) 2 :: rest.
Proof.
  apply (scales_and_tolerance_computed_once Stub.stub ramp (Scale_int 3) 2%nat
           (Tol_float 0.25) false false false false true ∅ eq_refl).
Defined.

(** X3: on a run that returns, the original signal is coarse-grained once
    per scale factor of [info["Scale"]], in the order of that list. *)
Theorem one_coarsegraining_per_scale
        (E : Collaborators) signal scale dimension tolerance
        (approximate composite refined fuzzy show : bool) (kw : kwargs)
        mse info t :
  entropy_multiscale E signal scale dimension tolerance
                     approximate composite refined fuzzy show kw
  = (Returns (mse, info), t) ->
  pick coarsegraining_scale t = items (Scale info).
Proof.
  intros H.
  destruct (sanity_check_fails signal) eqn:Hs;
    [unfold entropy_multiscale in H; rewrite Hs in H; discriminate H | ].
  rewrite (entry_run E signal scale dimension tolerance approximate composite
             refined fuzzy show kw Hs) in H.
  destruct (_get_scales E signal scale dimension) as [scales | e];
    [ | discriminate H].
  destruct (complexity_tolerance E signal tolerance dimension) as [tol | e];
    [ | discriminate H].
  destruct (for_each _ (items scales)) as [[values | e] tv] eqn:Hv;
    [ | discriminate H].
  cbn zeta in H.
  pose proof (plot_calls E (Info dimension scales tol values)) as Hp.
  destruct show; cbn [trace_of outcome_of fst snd ret] in H.
  - destruct (_entropy_multiscale_plot E (Info dimension scales tol values))
      as [[u | e] tp]; [ | discriminate H].
    injection H as <- <- <-. cbn [pick coarsegraining_scale Scale].
    apply for_each_returns in Hv as [_ ->].
    rewrite pick_app, pick_scales, pick_nothing; [apply app_nil_r | ].
    eapply List.Forall_impl; [ | exact Hp]. now intros c [p ->].
  - injection H as <- <- <-. cbn [pick coarsegraining_scale Scale].
    apply for_each_returns in Hv as [_ ->].
    now rewrite app_nil_r, pick_scales.
Qed.

Lemma one_coarsegraining_per_scale_witness :
  pick coarsegraining_scale
       (trace_of (entropy_multiscale Stub.stub ramp (Scale_list [4; 2; 9; 3]%Z) 2%nat
                                     (Tol_float 0.25) false false false false false ∅))
  = [4; 2; 9; 3]%Z.
Proof.
  apply (one_coarsegraining_per_scale Stub.stub ramp (Scale_list [4; 2; 9; 3]%Z) 2%nat
           (Tol_float 0.25) false false false false false ∅
           1.25 (Info 2 (Scales_list [4; 2; 9; 3]%Z) 0.25 [3; 1.5; Np.nan; 1.5])).
  reflexivity.
Defined.

(** X4: within one run of [entropy_multiscale], every estimator call is a
    call to the estimator that [approximate] selects, with the dimension of
    the call and the one tolerance that [complexity_tolerance] returned for
    the original signal. *)
Theorem one_estimator_dimension_tolerance
        (E : Collaborators) signal scale dimension tolerance
        (approximate composite refined fuzzy show : bool) (kw : kwargs) :
  Forall (fun c =>
            forall a, estimator_args c = Some a ->
                      c = (if approximate then Call_entropy_approximate a
                           else Call_entropy_sample a)
                      /\ arg_dimension a = dimension
                      /\ complexity_tolerance E signal tolerance dimension
                         = Returns (arg_tolerance a))
         (trace_of (entropy_multiscale E signal scale dimension tolerance
                                       approximate composite refined fuzzy show kw)).
Proof.
  destruct (sanity_check_fails signal) eqn:Hs;
    [unfold entropy_multiscale; rewrite Hs; constructor | ].
  rewrite (entry_run E signal scale dimension tolerance approximate composite
             refined fuzzy show kw Hs).
  destruct (_get_scales E signal scale dimension) as [scales | e];
    [ | constructor; [discriminate | constructor]].
  destruct (complexity_tolerance E signal tolerance dimension) as [tol | e] eqn:Htol;
    [ | constructor; [discriminate | constructor; [discriminate | constructor]]].
  pose proof (for_each_trace
                (loop_call_ok signal
                   (if approximate then Alg_approximate else Alg_sample)
                   dimension tol (pop_delay kw))
                (scale_value E signal
                   (if approximate then Alg_approximate else Alg_sample)
                   dimension tol (pop_delay kw)) (items scales)
                (scale_value_calls E signal _ dimension tol (pop_delay kw))) as Ht.
  assert (Hloop : forall t,
             Forall (loop_call_ok signal
                       (if approximate then Alg_approximate else Alg_sample)
                       dimension tol (pop_delay kw)) t ->
             Forall (fun c =>
                       forall a, estimator_args c = Some a ->
                                 c = (if approximate then Call_entropy_approximate a
                                      else Call_entropy_sample a)
                                 /\ arg_dimension a = dimension
                                 /\ Returns tol = Returns (arg_tolerance a)) t).
  { intros t Hok. eapply List.Forall_impl; [ | exact Hok].
    intros c Hc a Ha.
    destruct c; simpl in *; try discriminate Ha; try contradiction;
      injection Ha as <-; destruct Hc as [Halg [x ->]]; simpl;
      destruct approximate; try discriminate Halg; now repeat split. }
  destruct (for_each _ (items scales)) as [[values | e] tv]; simpl in *;
    (constructor; [discriminate | constructor; [discriminate | ]]).
  - apply Forall_app. split; [now apply Hloop | ].
    destruct show; [ | constructor].
    eapply List.Forall_impl; [ | apply plot_calls]. now intros c [p ->].
  - now apply Hloop.
Qed.

End EntryPointExtras.

Section EntryPointFailures.

Local Open Scope float_scope.

(** X5: when scale selection raises, [entropy_multiscale] raises the same
    exception and the tolerance is never asked for; when the tolerance
    estimation raises, it raises the same exception before any
    coarse-graining or entropy evaluation. *)
Theorem setup_failure_aborts
        (E : Collaborators) signal scale dimension tolerance
        (approximate composite refined fuzzy show : bool) (kw : kwargs) :
  sanity_check_fails signal = false ->
  (forall e,
      _get_scales E signal scale dimension = Raises e ->
      entropy_multiscale E signal scale dimension tolerance
                         approximate composite refined fuzzy show kw
      = (Raises e, [Call_get_scales signal scale dimension]))
  /\ (forall scales e,
         _get_scales E signal scale dimension = Returns scales ->
         complexity_tolerance E signal tolerance dimension = Raises e ->
         entropy_multiscale E signal scale dimension tolerance
                            approximate composite refined fuzzy show kw
         = (Raises e, [Call_get_scales signal scale dimension;
                       Call_complexity_tolerance signal tolerance dimension])).
Proof.
  intros Hs.
  rewrite (entry_run E signal scale dimension tolerance approximate composite
             refined fuzzy show kw Hs).
  split.
  - intros e ->. reflexivity.
  - intros scales e -> ->. reflexivity.
Qed.

Lemma setup_failure_aborts_witness :
  entropy_multiscale Faulty.no_scales ramp (Scale_int 3) 2%nat (Tol_float 0.25)
                     false false false false false ∅
  = (Raises (ValueError "no scale"), [Call_get_scales ramp (Scale_int 3) 2])
  /\ entropy_multiscale Faulty.no_tolerance ramp (Scale_int 3) 2%nat (Tol_float 0.25)
                        false false false false false ∅
     = (Raises (ValueError "no tolerance"),
        [Call_get_scales ramp (Scale_int 3) 2;
         Call_complexity_tolerance ramp (Tol_float 0.25) 2]).
Proof.
  split.
  - apply (proj1 (setup_failure_aborts Faulty.no_scales ramp (Scale_int 3) 2%nat
                    (Tol_float 0.25) false false false false false ∅ eq_refl)).
    reflexivity.
  - apply (proj2 (setup_failure_aborts Faulty.no_tolerance ramp (Scale_int 3) 2%nat
                    (Tol_float 0.25) false false false false false ∅ eq_refl)
             (Scales_ndarray [1; 2; 3]%Z)); reflexivity.
Defined.

(** X6: when the coarse-graining or the estimator raises at one scale
    factor, after the scale factors before it were evaluated,
    [entropy_multiscale] raises the same exception: there is no partial
    profile, and the scale factors after the failing one are never
    coarse-grained. *)
Theorem loop_failure_aborts
        (E : Collaborators) signal scale dimension tolerance
        (approximate composite refined fuzzy show : bool) (kw : kwargs)
        (scales : scales_t) (pre post : list Z) (s : Z) (tol : float) (e : exn) :
  sanity_check_fails signal = false ->
  _get_scales E signal scale dimension = Returns scales ->
  items scales = pre ++ s :: post ->
  complexity_tolerance E signal tolerance dimension = Returns tol ->
  Forall (fun x =>
            exists v,
              outcome_of (scale_value E signal
                            (if approximate then Alg_approximate else Alg_sample)
                            dimension tol (pop_delay kw) x) = Returns v) pre ->
  outcome_of (scale_value E signal
                (if approximate then Alg_approximate else Alg_sample)
                dimension tol (pop_delay kw) s) = Raises e ->
  outcome_of (entropy_multiscale E signal scale dimension tolerance
                                 approximate composite refined fuzzy show kw)
  = Raises e
  /\ pick coarsegraining_scale
          (trace_of (entropy_multiscale E signal scale dimension tolerance
                                        approximate composite refined fuzzy show kw))
     = pre ++ [s].
Proof.
  intros Hs Hscales Hitems Htol Hpre He.
  rewrite (entry_run E signal scale dimension tolerance approximate composite
             refined fuzzy show kw Hs), Hscales, Htol, Hitems.
  rewrite (for_each_raises _ pre post s e Hpre He). simpl.
  split; [reflexivity | ].
  now rewrite pick_app, pick_scales, scale_value_pick.
Qed.

Lemma loop_failure_aborts_witness :
  outcome_of (entropy_multiscale Faulty.strict ramp (Scale_list [1; 5; 2]%Z) 2%nat
                                 (Tol_float 0.25) false false false false false ∅)
  = Raises (ValueError "empty input")
  /\ pick coarsegraining_scale
          (trace_of (entropy_multiscale Faulty.strict ramp (Scale_list [1; 5; 2]%Z)
                                        2%nat (Tol_float 0.25)
                                        false false false false false ∅))
     = [1; 5]%Z.
Proof.
  apply (loop_failure_aborts Faulty.strict ramp (Scale_list [1; 5; 2]%Z) 2%nat
           (Tol_float 0.25) false false false false false ∅
           (Scales_list [1; 5; 2]%Z) [1%Z] [2%Z] 5%Z 0.25);
    [reflexivity | reflexivity | reflexivity | reflexivity | | reflexivity].
  constructor; [now exists 0.5 | constructor].
Defined.

(** X7: when scale selection returns no scale factor, [entropy_multiscale]
    does not raise: it returns a [nan] index with an empty profile, and
    nothing is coarse-grained. *)
Theorem no_scale_gives_nan
        (E : Collaborators) signal scale dimension tolerance
        (approximate composite refined fuzzy : bool) (kw : kwargs)
        (scales : scales_t) (tol : float) :
  sanity_check_fails signal = false ->
  _get_scales E signal scale dimension = Returns scales ->
  items scales = [] ->
  complexity_tolerance E signal tolerance dimension = Returns tol ->
  entropy_multiscale E signal scale dimension tolerance
                     approximate composite refined fuzzy false kw
  = (Returns (Np.nan, Info dimension scales tol []),
     [Call_get_scales signal scale dimension;
      Call_complexity_tolerance signal tolerance dimension]).
Proof.
  intros Hs Hscales Hitems Htol.
  rewrite (entry_run E signal scale dimension tolerance approximate composite
             refined fuzzy false kw Hs), Hscales, Htol, Hitems.
  reflexivity.
Qed.

Lemma no_scale_gives_nan_witness :
  entropy_multiscale Stub.stub ramp (Scale_list []) 2%nat (Tol_float 0.25)
                     false false false false false ∅
  = (Returns (Np.nan, Info 2 (Scales_list []) 0.25 []),
     [Call_get_scales ramp (Scale_list []) 2;
      Call_complexity_tolerance ramp (Tol_float 0.25) 2]).
Proof.
  apply no_scale_gives_nan; reflexivity.
Defined.

(** X8: every keyword other than ["delay"] reaches the collaborators
    unchanged: the dictionary forwarded to [complexity_coarsegraining] and
    to the estimator holds, for every such key, what the caller passed. *)
Theorem other_keywords_forwarded
        (E : Collaborators) signal scale dimension tolerance
        (approximate composite refined fuzzy show : bool) (kw : kwargs)
        (key : string) :
  key <> "delay"%string ->
  Forall (fun c =>
            (forall a, estimator_args c = Some a -> arg_kwargs a !! key = kw !! key)
            /\ (forall k, coarsegraining_kwargs c = Some k -> k !! key = kw !! key))
         (trace_of (entropy_multiscale E signal scale dimension tolerance
                                       approximate composite refined fuzzy show kw)).
Proof.
  intros Hkey.
  assert (Hpop : pop_delay kw !! key = kw !! key).
  { rewrite pop_delay_delete. apply lookup_delete_ne. congruence. }
  eapply List.Forall_impl; [ | apply entry_trace_ok].
  intros c (_ & Ha & Hk). split.
  - intros a Hca. destruct (Ha a Hca) as (_ & _ & ->). exact Hpop.
  - intros k Hck. now rewrite (Hk k Hck).
Qed.

Lemma other_keywords_forwarded_witness :
  Forall (fun c =>
            (forall a, estimator_args c = Some a ->
                       arg_kwargs a !! "method"%string = Some (PyStr "timeshift"))
            /\ (forall k, coarsegraining_kwargs c = Some k ->
                          k !! "method"%string = Some (PyStr "timeshift")))
         (trace_of (entropy_multiscale Faulty.timeshift two_rows_of_five
                                       (Scale_list [2]%Z) 2%nat (Tol_float 0.25)
                                       false false false false false with_method)).
Proof.
  apply (other_keywords_forwarded Faulty.timeshift two_rows_of_five
           (Scale_list [2]%Z) 2%nat (Tol_float 0.25)
           false false false false false with_method "method").
  discriminate.
Defined.

Lemma no_run_algo_clash (kw : kwargs) :
  kw !! "coarse"%string = None -> kw !! "algorithm"%string = None ->
  run_algo_clash kw = [].
Proof.
  intros Hc Ha. unfold run_algo_clash. cbn [List.filter].
  rewrite !bool_decide_eq_false_2; [reflexivity | | ];
    [rewrite Ha | rewrite Hc]; now intros [v Hv].
Qed.

(** X9: when [complexity_coarsegraining] returns a 2-D stack (as with
    [method="timeshift"]) and the keywords hold neither ["coarse"] nor
    ["algorithm"], the value of the scale factor is [_validmean] of the
    estimates of the rows, one estimator call per row in order, with no
    floor on the number of samples. *)
Theorem stacked_scale_value
        (E : Collaborators) signal (approximate : bool) dimension tol (kw : kwargs)
        (s : Z) (rows : list (list float)) (ests : list float) :
  kw !! "coarse"%string = None ->
  kw !! "algorithm"%string = None ->
  complexity_coarsegraining E signal s (Some false) kw = Returns (Arr2 rows) ->
  Forall2 (fun row v =>
             (if approximate then entropy_approximate E else entropy_sample E)
               (Est_args (Arr1 row) 1 dimension tol None None kw)
             = Returns v) rows ests ->
  scale_value E signal (if approximate then Alg_approximate else Alg_sample)
              dimension tol kw s
  = (Returns (_validmean ests),
     Call_complexity_coarsegraining signal s (Some false) kw
     :: map (fun row =>
               (if approximate then Call_entropy_approximate else Call_entropy_sample)
                 (Est_args (Arr1 row) 1 dimension tol None None kw)) rows).
Proof.
  intros Hkc Hka Hc Hests.
  unfold scale_value, call_complexity_coarsegraining. rewrite Hc.
  rewrite (no_run_algo_clash kw Hkc Hka).
  unfold perform at 1. cbn [bind _run_algo].
  destruct approximate; cbn [call_algorithm];
    unfold call_entropy_approximate, call_entropy_sample;
    rewrite (for_each_perform _ _ rows ests Hests); cbn [bind ret];
    now rewrite app_nil_r.
Qed.

Lemma stacked_scale_value_witness :
  outcome_of (entropy_multiscale Faulty.timeshift rows_mixed (Scale_list [2]%Z) 2%nat
                                 (Tol_float 0.25) false false false false false
                                 with_method)
  = Returns (0, Info 2 (Scales_list [2]%Z) 0.25 [1.5])
  /\ scale_value Faulty.timeshift rows_mixed Alg_sample 2 0.25
                 (delete "delay"%string with_method) 2
     = (Returns (_validmean [1; Np.inf; 2; Np.nan]),
        Call_complexity_coarsegraining rows_mixed 2 (Some false)
                                       (delete "delay"%string with_method)
        :: map (fun row =>
                  Call_entropy_sample
                    (Est_args (Arr1 row) 1 2 0.25 None None
                              (delete "delay"%string with_method)))
               [[1; 2; 3; 4]; [Np.inf; 2; 3; 4]; [2; 0; 0; 0]; [Np.nan; 1; 1; 1]]).
Proof.
  split; [reflexivity | ].
  apply (stacked_scale_value Faulty.timeshift rows_mixed false 2%nat 0.25
           (delete "delay"%string with_method) 2%Z);
    [reflexivity | reflexivity | reflexivity | repeat constructor].
Defined.

(** The plot hook on scale factors held in a Python list. *)
Lemma plot_of_list_raises (E : Collaborators) (info : info_t) (factors : list Z) :
  Scale info = Scales_list factors ->
  (exists e, outcome_of (_entropy_multiscale_plot E info) = Raises e)
  /\ ((forall c, matplotlib E c = Returns tt) ->
      outcome_of (_entropy_multiscale_plot E info)
      = Raises (TypeError list_index_msg)).
Proof.
  intros Hscale. unfold _entropy_multiscale_plot, call_matplotlib, perform, lift.
  rewrite Hscale. cbn [scale_getitem]. split.
  - destruct (matplotlib E Plt_figure) as [[] | e]; cbn; [ | now eexists].
    destruct (matplotlib E (Fig_suptitle _)) as [[] | e]; cbn; [ | now eexists].
    destruct (matplotlib E (Plt_ylabel _)) as [[] | e]; cbn; [ | now eexists].
    destruct (matplotlib E (Plt_xlabel _)) as [[] | e]; cbn; now eexists.
  - intros Hplt. now rewrite !Hplt.
Qed.

(** X18: with the scale factors in a Python list (as when the caller gives
    a list of scale factors and [_get_scales] hands it back), a run whose
    loop completes returns without [show] but never returns with
    [show=True]: the plot hook indexes the list with a boolean array, a
    [TypeError], unless matplotlib raises before. *)
Theorem show_with_list_of_scales_raises
        (E : Collaborators) signal scale dimension tolerance
        (approximate composite refined fuzzy : bool) (kw : kwargs)
        (factors : list Z) (tol : float) (values : list float) (tv : list call) :
  sanity_check_fails signal = false ->
  _get_scales E signal scale dimension = Returns (Scales_list factors) ->
  complexity_tolerance E signal tolerance dimension = Returns tol ->
  for_each (scale_value E signal
              (if approximate then Alg_approximate else Alg_sample)
              dimension tol (pop_delay kw)) factors
  = (Returns values, tv) ->
  outcome_of (entropy_multiscale E signal scale dimension tolerance
                                 approximate composite refined fuzzy false kw)
  = Returns (auc_of_finite values, Info dimension (Scales_list factors) tol values)
  /\ (exists e,
         outcome_of (entropy_multiscale E signal scale dimension tolerance
                                        approximate composite refined fuzzy true kw)
         = Raises e)
  /\ ((forall c, matplotlib E c = Returns tt) ->
      exists msg,
        outcome_of (entropy_multiscale E signal scale dimension tolerance
                                       approximate composite refined fuzzy true kw)
        = Raises (TypeError msg)).
Proof.
  intros Hs Hscales Htol Hv.
  rewrite !(entry_run E signal scale dimension tolerance approximate composite
              refined fuzzy _ kw Hs), Hscales, Htol.
  cbn [items]. rewrite Hv. cbv zeta. cbv iota.
  destruct (plot_of_list_raises E (Info dimension (Scales_list factors) tol values)
              factors eq_refl) as [[e He] Hmsg].
  split; [reflexivity | split].
  - exists e. unfold outcome_of at 1. cbn [fst]. now rewrite He.
  - intros Hplt. exists list_index_msg.
    unfold outcome_of at 1. cbn [fst]. now rewrite (Hmsg Hplt).
Qed.

Lemma show_with_list_of_scales_raises_witness :
  outcome_of (entropy_multiscale Stub.stub ramp (Scale_list [1; 2; 3]%Z) 2%nat
                                 (Tol_float 0.25) false false false false false ∅)
  = Returns (auc_of_finite [0.5; 1.5; 1.5],
             Info 2 (Scales_list [1; 2; 3]%Z) 0.25 [0.5; 1.5; 1.5])
  /\ exists msg,
       outcome_of (entropy_multiscale Stub.stub ramp (Scale_list [1; 2; 3]%Z) 2%nat
                                      (Tol_float 0.25) false false false false true ∅)
       = Raises (TypeError msg).
Proof.
  assert (Hloop : for_each (scale_value Stub.stub ramp Alg_sample 2 0.25 (pop_delay ∅))
                           [1; 2; 3]%Z
                  = (Returns [0.5; 1.5; 1.5],
                     trace_of (for_each (scale_value Stub.stub ramp Alg_sample 2 0.25
                                                     (pop_delay ∅)) [1; 2; 3]%Z)))
    by reflexivity.
  destruct (show_with_list_of_scales_raises Stub.stub ramp (Scale_list [1; 2; 3]%Z)
              2%nat (Tol_float 0.25) false false false false ∅
              [1; 2; 3]%Z 0.25 [0.5; 1.5; 1.5] _ eq_refl eq_refl eq_refl Hloop)
    as (Hfalse & _ & Htrue).
  split; [exact Hfalse | ]. apply Htrue. reflexivity.
Defined.

(** X19: a ["coarse"] or ["algorithm"] keyword makes [entropy_multiscale]
    raise a [TypeError] at its first scale factor: the signal is
    coarse-grained once, then the call to [_run_algo] is given that
    argument twice, and no estimator is ever called. *)
Theorem run_algo_keyword_clash
        (E : Collaborators) signal scale dimension tolerance
        (approximate composite refined fuzzy show : bool) (kw : kwargs)
        (scales : scales_t) (s : Z) (rest : list Z) (tol : float) (coarse : nparray) :
  sanity_check_fails signal = false ->
  is_Some (kw !! "coarse"%string) \/ is_Some (kw !! "algorithm"%string) ->
  _get_scales E signal scale dimension = Returns scales ->
  items scales = s :: rest ->
  complexity_tolerance E signal tolerance dimension = Returns tol ->
  complexity_coarsegraining E signal s (Some false) (pop_delay kw) = Returns coarse ->
  exists names,
    names <> []
    /\ entropy_multiscale E signal scale dimension tolerance
                          approximate composite refined fuzzy show kw
       = (Raises (TypeError_multiple_values "_run_algo" names),
          [Call_get_scales signal scale dimension;
           Call_complexity_tolerance signal tolerance dimension;
           Call_complexity_coarsegraining signal s (Some false) (pop_delay kw)]).
Proof.
  intros Hs Hkw Hscales Hitems Htol Hcoarse.
  exists (run_algo_clash (pop_delay kw)). split.
  - unfold run_algo_clash. cbn [List.filter]. rewrite pop_delay_delete.
    rewrite !lookup_delete_ne by discriminate.
    destruct Hkw as [Hk | Hk]; rewrite (bool_decide_eq_true_2 _ Hk);
      [discriminate | ].
    now destruct (bool_decide (is_Some (kw !! "coarse"%string))).
  - rewrite (entry_run E signal scale dimension tolerance approximate composite
               refined fuzzy show kw Hs), Hscales, Htol, Hitems.
    cbn [for_each]. unfold scale_value at 1, call_complexity_coarsegraining, perform.
    rewrite Hcoarse. cbn [bind].
    assert (Hne : run_algo_clash (pop_delay kw) <> []).
    { unfold run_algo_clash. cbn [List.filter]. rewrite pop_delay_delete.
      rewrite !lookup_delete_ne by discriminate.
      destruct Hkw as [Hk | Hk]; rewrite (bool_decide_eq_true_2 _ Hk);
        [discriminate | ].
      now destruct (bool_decide (is_Some (kw !! "coarse"%string))). }
    destruct (run_algo_clash (pop_delay kw)) as [ | name names]; [now destruct Hne | ].
    reflexivity.
Qed.

Lemma run_algo_keyword_clash_witness :
  exists names,
    names <> []
    /\ entropy_multiscale Stub.stub ramp (Scale_list [2; 3]%Z) 2%nat (Tol_float 0.25)
                          false false false false false with_coarse
       = (Raises (TypeError_multiple_values "_run_algo" names),
          [Call_get_scales ramp (Scale_list [2; 3]%Z) 2;
           Call_complexity_tolerance ramp (Tol_float 0.25) 2;
           Call_complexity_coarsegraining ramp 2 (Some false)
                                          (pop_delay with_coarse)]).
Proof.
  apply (run_algo_keyword_clash Stub.stub ramp (Scale_list [2; 3]%Z) 2%nat
           (Tol_float 0.25) false false false false false with_coarse
           (Scales_list [2; 3]%Z) 2%Z [3%Z] 0.25 (Stub.coarse ramp 2));
    [reflexivity | left; now exists (PyInt 1)
     | reflexivity | reflexivity | reflexivity | reflexivity].
Defined.

End EntryPointFailures.

(* ===================================================================== *)
(** ** More on float64: [nan] in sums and means *)
(* ===================================================================== *)

Section NanFacts.

Lemma SFeqb_refl_not_nan (x : spec_float) : x <> S754_nan -> SFeqb x x = true.
Proof.
  unfold SFeqb. destruct x as [s | s | | s m e]; simpl; intros H.
  - reflexivity.
  - now destruct s.
  - now destruct H.
  - rewrite Z.compare_refl, Pos.compare_cont_refl. now destruct s.
Qed.

Lemma isnan_is_nan (v : float) : Np.isnan v = true -> v = Np.nan.
Proof.
  unfold Np.isnan, PrimFloat.is_nan. rewrite FloatAxioms.eqb_spec. intros H.
  apply Prim2SF_inj. change (Prim2SF Np.nan) with S754_nan.
  destruct (Prim2SF v) as [s | s | | s m e] eqn:Hv; try reflexivity;
    rewrite SFeqb_refl_not_nan in H; discriminate.
Qed.

Lemma add_nan_l (v : float) : PrimFloat.add Np.nan v = Np.nan.
Proof.
  apply Prim2SF_inj. rewrite FloatAxioms.add_spec.
  change (Prim2SF Np.nan) with S754_nan. reflexivity.
Qed.

Lemma add_nan_r (v : float) : PrimFloat.add v Np.nan = Np.nan.
Proof.
  apply Prim2SF_inj. rewrite FloatAxioms.add_spec.
  change (Prim2SF Np.nan) with S754_nan.
  now destruct (Prim2SF v) as [ [] | [] | | ].
Qed.

Lemma div_nan_l (v : float) : PrimFloat.div Np.nan v = Np.nan.
Proof.
  apply Prim2SF_inj. rewrite FloatAxioms.div_spec.
  change (Prim2SF Np.nan) with S754_nan. reflexivity.
Qed.

Lemma fold_add_nan (xs : list float) : fold_left PrimFloat.add xs Np.nan = Np.nan.
Proof.
  induction xs as [ | x xs IH]; simpl; [reflexivity | ]. now rewrite add_nan_l.
Qed.

Lemma add_list_with_nan (acc : float) (xs : list float) :
  Exists (fun v => Np.isnan v = true) xs -> Np.add_list acc xs = Np.nan.
Proof.
  unfold Np.add_list. revert acc.
  induction xs as [ | x xs IH]; intros acc H; inversion H as [? ? Hx | ? ? Hxs]; subst;
    simpl.
  - rewrite (isnan_is_nan x Hx), add_nan_r. apply fold_add_nan.
  - now apply IH.
Qed.

Lemma exists_nan_app (xs ys : list float) :
  Exists (fun v => Np.isnan v = true) (xs ++ ys) ->
  Exists (fun v => Np.isnan v = true) xs \/ Exists (fun v => Np.isnan v = true) ys.
Proof. intros H. now apply List.Exists_app in H. Qed.

Lemma exists_nan_split (n : nat) (xs : list float) :
  Exists (fun v => Np.isnan v = true) xs ->
  Exists (fun v => Np.isnan v = true) (firstn n xs)
  \/ Exists (fun v => Np.isnan v = true) (skipn n xs).
Proof. intros H. apply exists_nan_app. now rewrite firstn_skipn. Qed.

Lemma add_into_length (r ys : list float) : length (Np.add_into r ys) = length r.
Proof.
  revert ys. induction r as [ | a r IH]; intros [ | y ys]; simpl; try reflexivity.
  now rewrite IH.
Qed.

Lemma add_into_nan_l (r ys : list float) :
  Exists (fun v => Np.isnan v = true) r ->
  Exists (fun v => Np.isnan v = true) (Np.add_into r ys).
Proof.
  intros H. revert ys. induction H as [a r Ha | a r Hr IH]; intros [ | y ys]; simpl.
  - now apply Exists_cons_hd.
  - apply Exists_cons_hd. now rewrite (isnan_is_nan a Ha), add_nan_l.
  - now apply Exists_cons_tl.
  - apply Exists_cons_tl. apply IH.
Qed.

Lemma add_into_nan_r (r ys : list float) :
  length ys <= length r ->
  Exists (fun v => Np.isnan v = true) ys ->
  Exists (fun v => Np.isnan v = true) (Np.add_into r ys).
Proof.
  intros Hlen H. revert r Hlen.
  induction H as [y ys Hy | y ys _ IH]; intros [ | a r] Hlen; simpl in *; try lia.
  - apply Exists_cons_hd. now rewrite (isnan_is_nan y Hy), add_nan_r.
  - apply Exists_cons_tl. apply IH. lia.
Qed.

Lemma add_groups_nan (groups : nat) (r xs : list float) :
  length r = 8 ->
  Exists (fun v => Np.isnan v = true) r \/ Exists (fun v => Np.isnan v = true) xs ->
  length (fst (Np.add_groups groups r xs)) = 8
  /\ (Exists (fun v => Np.isnan v = true) (fst (Np.add_groups groups r xs))
      \/ Exists (fun v => Np.isnan v = true) (snd (Np.add_groups groups r xs))).
Proof.
  revert r xs. induction groups as [ | g IH]; intros r xs Hr H; simpl;
    [now split | ].
  apply IH; [now rewrite add_into_length | ].
  destruct H as [H | H]; [left; now apply add_into_nan_l | ].
  destruct (exists_nan_split 8 xs H) as [H8 | Hrest]; [left | now right].
  apply add_into_nan_r; [ | exact H8].
  rewrite Hr. apply firstn_le_length.
Qed.

Lemma tree8_nan (r : list float) :
  length r = 8 -> Exists (fun v => Np.isnan v = true) r -> Np.tree8 r = Np.nan.
Proof.
  intros Hr H.
  do 8 (destruct r as [ | ? r]; [discriminate Hr | ]).
  destruct r; [ | discriminate Hr]. unfold Np.tree8. cbn [nth].
  repeat match goal with
         | H : Exists _ (_ :: _) |- _ =>
             apply List.Exists_cons in H; destruct H as [Hx | H];
             [apply isnan_is_nan in Hx; subst;
              repeat (rewrite add_nan_l || rewrite add_nan_r); reflexivity | ]
         | H : Exists _ [] |- _ => inversion H
         end.
Qed.

Lemma sum_block_nan (xs : list float) :
  8 <= length xs ->
  Exists (fun v => Np.isnan v = true) xs -> Np.sum_block xs = Np.nan.
Proof.
  intros Hlen H. unfold Np.sum_block.
  destruct (add_groups_nan (length xs / 8 - 1) (firstn 8 xs) (skipn 8 xs))
    as [Hr Hnan].
  - rewrite length_firstn. lia.
  - now apply exists_nan_split.
  - destruct (Np.add_groups _ _ _) as [r rest]. cbn [fst snd] in *.
    destruct Hnan as [Hnan | Hnan].
    + rewrite (tree8_nan r Hr Hnan). apply fold_add_nan.
    + now apply add_list_with_nan.
Qed.

Lemma pairwise_sum_nan (fuel : nat) (xs : list float) :
  Exists (fun v => Np.isnan v = true) xs -> Np.pairwise_sum fuel xs = Np.nan.
Proof.
  revert xs. induction fuel as [ | fuel IH]; intros xs H; cbn [Np.pairwise_sum];
    destruct (Nat.ltb_spec (length xs) 8) as [Hlt | Hge];
    try (now apply add_list_with_nan);
    destruct (length xs <=? 128); try (now apply sum_block_nan).
  destruct (exists_nan_split (length xs / 2 - (length xs / 2) mod 8) xs H)
    as [Hl | Hr].
  - rewrite (IH _ Hl). apply add_nan_l.
  - rewrite (IH _ Hr). apply add_nan_r.
Qed.

(** One [nan] makes the sum, and so the mean, [nan]. *)
Lemma sum_with_nan (xs : list float) :
  Exists (fun v => Np.isnan v = true) xs -> Np.sum xs = Np.nan.
Proof.
  intros H. unfold Np.sum. rewrite (pairwise_sum_nan _ xs H). apply add_nan_r.
Qed.

Lemma mean_with_nan (xs : list float) :
  Exists (fun v => Np.isnan v = true) xs -> Np.mean xs = Np.nan.
Proof.
  intros H. unfold Np.mean. rewrite (sum_with_nan xs H). apply div_nan_l.
Qed.

Lemma finite_filter_twice (l : list float) :
  List.filter (fun v => Np.ne v Np.inf && Np.ne v Np.neg_inf)
              (List.filter (fun v => negb (Np.isnan v)) l)
  = List.filter Np.isfinite l.
Proof.
  induction l as [ | v l IH]; simpl; [reflexivity | ].
  rewrite <- (cmse_kept_isfinite v). unfold cmse_kept.
  destruct (Np.isnan v); simpl.
  - now rewrite andb_false_r.
  - now rewrite andb_true_r, IH.
Qed.

Lemma validmean_is_mean_of_finite (x : list float) :
  _validmean x = Np.mean (List.filter Np.isfinite x).
Proof.
  unfold _validmean. rewrite select_map.
  now destruct (List.filter Np.isfinite x).
Qed.

End NanFacts.

(* ===================================================================== *)
(** ** More on the per-scale methods and on [_entropy_multiscale] *)
(* ===================================================================== *)

Section MethodCalls.

Variable E : Collaborators.

Lemma mse_calls signal tau dimension tolerance fuzzy (kw : kwargs) :
  Forall (fun c => method_call_ok signal dimension tolerance fuzzy kw c
                   /\ is_rolling c = false /\ is_phi c = false)
         (trace_of (_entropy_multiscale_mse E signal tau dimension tolerance fuzzy kw)).
Proof.
  unfold _entropy_multiscale_mse. apply bind_trace.
  - constructor; [now repeat split | constructor].
  - intros y. destruct (too_few (len y) dimension); [constructor | ].
    constructor; [ | constructor]. repeat split. now exists y.
Qed.

Lemma cmse_calls signal tau dimension tolerance fuzzy (kw : kwargs) :
  Forall (fun c => method_call_ok signal dimension tolerance fuzzy kw c
                   /\ is_phi c = false /\ coarsegraining_scale c = None)
         (trace_of (_entropy_multiscale_cmse E signal tau dimension tolerance fuzzy kw)).
Proof.
  unfold _entropy_multiscale_cmse. apply bind_trace.
  - constructor; [now repeat split | constructor].
  - intros y. destruct (too_few (size y) dimension); [constructor | ].
    apply bind_trace.
    + apply for_each_trace. intros row. constructor; [ | constructor].
      repeat split. now exists (Arr1 row).
    + intros mse_y. destruct (_ =? _); constructor.
Qed.

Lemma rcmse_calls signal tau dimension tolerance fuzzy (kw : kwargs) :
  Forall (fun c => method_call_ok signal dimension tolerance fuzzy kw c
                   /\ is_entropy_sample c = false /\ coarsegraining_scale c = None)
         (trace_of (_entropy_multiscale_rcmse E signal tau dimension tolerance fuzzy kw)).
Proof.
  unfold _entropy_multiscale_rcmse. apply bind_trace.
  - constructor; [now repeat split | constructor].
  - intros y. destruct (too_few (size y) dimension); [constructor | ].
    apply bind_trace.
    + apply for_each_trace. intros row. constructor; [ | constructor].
      repeat split. now exists row.
    + intros phi_. constructor; [now repeat split | constructor].
Qed.

Lemma variant_value_calls signal dimension tolerance
      (composite fuzzy refined : bool) (kw : kwargs) tau :
  Forall (method_call_ok signal dimension tolerance fuzzy kw)
         (trace_of (variant_value E signal dimension tolerance
                                  composite fuzzy refined kw tau)).
Proof.
  unfold variant_value, call_method.
  destruct (negb refined && negb composite); [ | destruct (negb refined && composite)];
    (case_bool_decide; [constructor | ]);
    (eapply List.Forall_impl;
     [ | first [apply mse_calls | apply cmse_calls | apply rcmse_calls]]);
    now intros c [Hc _].
Qed.

Lemma variant_value_selected signal dimension tolerance
      (composite fuzzy refined : bool) (kw : kwargs) tau v :
  outcome_of (variant_value E signal dimension tolerance
                            composite fuzzy refined kw tau) = Returns v ->
  outcome_of (selected_method E signal dimension tolerance
                              composite fuzzy refined kw tau) = Returns v.
Proof.
  unfold variant_value, selected_method, call_method.
  destruct refined, composite; cbn [negb andb];
    (case_bool_decide; [discriminate | trivial]).
Qed.

End MethodCalls.

Section MethodExtras.

Local Open Scope float_scope.

(** X10: [_validmean] does not see non-finite entries: removing a [nan],
    [inf] or [-inf] from the list, wherever it stands, leaves the result
    unchanged. *)
Theorem validmean_ignores_non_finite (xs ys : list float) (v : float) :
  Np.isfinite v = false ->
  _validmean (xs ++ v :: ys) = _validmean (xs ++ ys).
Proof.
  intros Hv. rewrite !validmean_is_mean_of_finite, !List.filter_app. simpl.
  now rewrite Hv.
Qed.

Lemma validmean_ignores_non_finite_witness :
  _validmean ([1; 2] ++ Np.inf :: [3]) = _validmean ([1; 2] ++ [3])
  /\ _validmean [1; 2; 3] = 2.
Proof.
  split; [ | reflexivity].
  apply validmean_ignores_non_finite. reflexivity.
Defined.

(** X11: on a stack of at least [10 ** dimension] elements, the value of
    [_entropy_multiscale_cmse] is what [_validmean], the robust mean of the
    entry point, gives on the same row estimates: the two ways of dropping
    non-finite rows agree, also when no row is finite. *)
Theorem cmse_is_validmean
        (E : Collaborators) signal tau dimension tolerance fuzzy (kw : kwargs)
        y ests :
  _get_coarsegrained_rolling E signal tau = Returns y ->
  Forall2 (fun row v =>
             entropy_sample E (row_args dimension tolerance fuzzy None kw row)
             = Returns v) y ests ->
  10 ^ dimension <= size y ->
  outcome_of (_entropy_multiscale_cmse E signal tau dimension tolerance fuzzy kw)
  = Returns (_validmean ests).
Proof.
  intros Hy Hests Hn.
  rewrite (cmse_run E signal tau dimension tolerance fuzzy kw y ests Hy Hests).
  rewrite (too_few_false _ _ Hn), validmean_is_mean_of_finite. reflexivity.
Qed.

Lemma cmse_is_validmean_witness :
  outcome_of (_entropy_multiscale_cmse Stub.stub rows_mixed 4 1 0.25 false ∅)
  = Returns (_validmean [1; Np.inf; 2; Np.nan]).
Proof.
  apply (cmse_is_validmean Stub.stub rows_mixed 4 1 0.25 false ∅
           [[1; 2; 3; 4]; [Np.inf; 2; 3; 4]; [2; 0; 0; 0]; [Np.nan; 1; 1; 1]]);
    [reflexivity | repeat constructor | vm_compute; lia].
Defined.

(** X12: the index of [_entropy_multiscale] (drop [nan], then drop
    [inf] and [-inf], then [np.trapz / len]) is the index of
    [entropy_multiscale] ([np.isfinite], then [np.trapz / len]) on every
    profile. *)
Theorem auc_of_valid_is_auc_of_finite (mse_vals : list float) :
  auc_of_valid mse_vals = auc_of_finite mse_vals.
Proof.
  unfold auc_of_valid, auc_of_finite.
  now rewrite !select_map, finite_filter_twice.
Qed.

(** X13: [_entropy_multiscale] with [show=True] never returns: after the
    same collaborator calls as with [show=False], it raises the exception
    of the loop if there is one, and otherwise the [TypeError] of the plot
    hook, which is called with two arguments. *)
Theorem internal_show_always_raises
        (E : Collaborators) signal tolerance scale_factors dimension
        (composite fuzzy refined : bool) (kw : kwargs) :
  outcome_of (_entropy_multiscale E signal tolerance scale_factors dimension
                                  composite fuzzy refined true kw)
  = match outcome_of (_entropy_multiscale E signal tolerance scale_factors dimension
                                          composite fuzzy refined false kw) with
    | Returns _ => Raises (TypeError plot_msg)
    | Raises e => Raises e
    end
  /\ trace_of (_entropy_multiscale E signal tolerance scale_factors dimension
                                   composite fuzzy refined true kw)
     = trace_of (_entropy_multiscale E signal tolerance scale_factors dimension
                                     composite fuzzy refined false kw).
Proof.
  unfold _entropy_multiscale.
  destruct (for_each _ scale_factors) as [[mse_vals | e] tv]; simpl; now split.
Qed.

(** X14: when [_entropy_multiscale] returns, there is one value per scale
    factor, in order, each the value of the method that [(refined,
    composite)] selects (refined: RCMSE whatever [composite] is; composite
    alone: CMSE; neither: MSE); the index is the normalised trapezoid of
    the finite values; and every estimator or φ call was made with
    [delay=1], [fuzzy=fuzzy], and the dimension, tolerance and keywords of
    the call. *)
Theorem internal_dispatch
        (E : Collaborators) signal tolerance scale_factors dimension
        (composite fuzzy refined show : bool) (kw : kwargs) mse mse_vals t :
  _entropy_multiscale E signal tolerance scale_factors dimension
                      composite fuzzy refined show kw
  = (Returns (mse, mse_vals), t) ->
  show = false
  /\ mse = auc_of_finite mse_vals
  /\ Forall2 (fun tau v =>
                outcome_of (selected_method E signal dimension tolerance
                                            composite fuzzy refined kw tau)
                = Returns v)
             scale_factors mse_vals
  /\ Forall (method_call_ok signal dimension tolerance fuzzy kw) t.
Proof.
  intros H. unfold _entropy_multiscale in H.
  apply bind_returns in H as (vals & t1 & t2 & Hv & H & ->).
  apply bind_returns in H as (u & t3 & t4 & Hshow & H & ->).
  injection H as <- <- <-.
  destruct show; [discriminate Hshow | ]. injection Hshow as <- <-.
  split; [reflexivity | ]. split; [apply auc_of_valid_is_auc_of_finite | ].
  pose proof (for_each_trace (method_call_ok signal dimension tolerance fuzzy kw)
                (variant_value E signal dimension tolerance composite fuzzy refined kw)
                scale_factors
                (variant_value_calls E signal dimension tolerance
                                     composite fuzzy refined kw)) as Ht.
  rewrite Hv in Ht. simpl in Ht. rewrite !app_nil_r.
  split; [ | exact Ht].
  apply for_each_returns in Hv as [Hall _].
  induction Hall as [ | tau v taus vs Hx _ IH]; constructor; [ | exact IH].
  now apply variant_value_selected.
Qed.

Lemma internal_dispatch_witness :
  exists t,
    _entropy_multiscale Stub.stub rows_mixed 0.25 [4; 4]%Z 1
                        true false false false ∅
    = (Returns (0.75, [1.5; 1.5]), t)
    /\ Forall2 (fun tau v =>
                  outcome_of (_entropy_multiscale_cmse Stub.stub rows_mixed tau 1 0.25
                                                       false ∅)
                  = Returns v)
               [4; 4]%Z [1.5; 1.5].
Proof.
  eexists. split; [reflexivity | ].
  exact (proj1 (proj2 (proj2
           (internal_dispatch Stub.stub rows_mixed 0.25 [4; 4]%Z 1%nat
              true false false false ∅ 0.75 [1.5; 1.5] _ eq_refl)))).
Defined.

(** X15: a ["tau"] keyword makes [_entropy_multiscale] raise, at the first
    scale factor and before any collaborator is called, the [TypeError] of
    a call that gives ["tau"] twice to the method that [(refined,
    composite)] selects. *)
Theorem tau_keyword_rejected
        (E : Collaborators) signal tolerance scale_factors dimension
        (composite fuzzy refined show : bool) (kw : kwargs) :
  is_Some (kw !! "tau"%string) ->
  scale_factors <> [] ->
  _entropy_multiscale E signal tolerance scale_factors dimension
                      composite fuzzy refined show kw
  = (Raises (TypeError_multiple_values
               (match refined, composite with
                | true, _ => "_entropy_multiscale_rcmse"
                | false, true => "_entropy_multiscale_cmse"
                | false, false => "_entropy_multiscale_mse"
                end)
               ["tau"%string]),
     []).
Proof.
  intros Hkw Hne. destruct scale_factors as [ | tau taus]; [now destruct Hne | ].
  unfold _entropy_multiscale. cbn [for_each]. unfold variant_value, call_method.
  rewrite (bool_decide_eq_true_2 _ Hkw). now destruct refined, composite.
Qed.

Lemma tau_keyword_rejected_witness :
  _entropy_multiscale Stub.stub ten_samples 0.25 [1; 2]%Z 1
                      true false false false with_tau
  = (Raises (TypeError_multiple_values "_entropy_multiscale_cmse" ["tau"%string]), []).
Proof.
  apply (tau_keyword_rejected Stub.stub ten_samples 0.25 [1; 2]%Z 1%nat
           true false false false with_tau);
    [now exists (PyInt 3) | discriminate].
Defined.

(** X16: whatever the inputs and however the run ends, the plain method
    never builds the time-shifted stack and never computes a φ; the
    composite method never computes a φ; the refined-composite method
    never calls [entropy_sample]. *)
Theorem methods_never_call
        (E : Collaborators) signal tau dimension tolerance fuzzy (kw : kwargs) :
  Forall (fun c => is_rolling c = false /\ is_phi c = false)
         (trace_of (_entropy_multiscale_mse E signal tau dimension tolerance fuzzy kw))
  /\ Forall (fun c => is_phi c = false)
            (trace_of (_entropy_multiscale_cmse E signal tau dimension tolerance
                                                fuzzy kw))
  /\ Forall (fun c => is_entropy_sample c = false)
            (trace_of (_entropy_multiscale_rcmse E signal tau dimension tolerance
                                                 fuzzy kw)).
Proof.
  split; [ | split].
  - eapply List.Forall_impl; [ | apply mse_calls]. now intros c (_ & H).
  - eapply List.Forall_impl; [ | apply cmse_calls]. now intros c (_ & H & _).
  - eapply List.Forall_impl; [ | apply rcmse_calls]. now intros c (_ & H & _).
Qed.

(** X17: the refined-composite method does not filter the rows: on a
    stack of at least [10 ** dimension] elements, one row whose first φ
    component is [nan] makes the first component given to [_phi_divide]
    [nan], and likewise for the second component. *)
Theorem rcmse_nan_row_spoils_average
        (E : Collaborators) signal tau dimension tolerance fuzzy (kw : kwargs)
        y phis :
  _get_coarsegrained_rolling E signal tau = Returns y ->
  Forall2 (fun row p =>
             _phi E (row_args dimension tolerance fuzzy (Some false) kw row)
             = Returns p) y phis ->
  10 ^ dimension <= size y ->
  (Exists (fun p => Np.isnan (fst p) = true) phis ->
   outcome_of (_entropy_multiscale_rcmse E signal tau dimension tolerance fuzzy kw)
   = _phi_divide E (Np.nan, Np.mean (map snd phis)))
  /\ (Exists (fun p => Np.isnan (snd p) = true) phis ->
      outcome_of (_entropy_multiscale_rcmse E signal tau dimension tolerance fuzzy kw)
      = _phi_divide E (Np.mean (map fst phis), Np.nan)).
Proof.
  intros Hy Hphis Hn.
  rewrite (rcmse_run E signal tau dimension tolerance fuzzy kw y phis Hy Hphis).
  rewrite (too_few_false _ _ Hn). simpl.
  split; intros Hnan.
  - rewrite (mean_with_nan (map fst phis)); [reflexivity | ].
    apply List.Exists_exists in Hnan as (p & Hin & Hp).
    apply List.Exists_exists. exists (fst p). split; [now apply in_map | exact Hp].
  - rewrite (mean_with_nan (map snd phis)); [reflexivity | ].
    apply List.Exists_exists in Hnan as (p & Hin & Hp).
    apply List.Exists_exists. exists (snd p). split; [now apply in_map | exact Hp].
Qed.

Lemma rcmse_nan_row_spoils_average_witness :
  outcome_of (_entropy_multiscale_rcmse Stub.stub rows_with_nan_phi 2 1 0.25 false ∅)
  = _phi_divide Stub.stub (Np.nan, Np.mean [2; 4]).
Proof.
  apply (proj1 (rcmse_nan_row_spoils_average Stub.stub rows_with_nan_phi 2 1 0.25
                  false ∅ [[1; 2; 3; 4; 5]; [Np.nan; 4; 5; 6; 7]]
                  [(1, 2); (Np.nan, 4)] eq_refl
                  ltac:(repeat constructor) ltac:(vm_compute; lia))).
  apply Exists_cons_tl, Exists_cons_hd. reflexivity.
Defined.

End MethodExtras.
